(** * Suggestion lifecycle of the claims API

    A shallow embedding of the suggestion store, the rule-based fallback
    generator, the review paths and the metrics of [claims-api/app], with
    the properties of the design specification stated over it.

    Conventions of the embedding.
    - The SQLAlchemy session is the table of suggestions keyed by the
      primary key [id]; every repository method commits before it returns,
      so the table is the committed state.
    - Amounts and confidence scores are only compared and passed on: they
      are exact rationals ([Q]).  The rates of the metrics are computed, by
      a division: they are binary64 numbers, the primitive floats.
    - [uuid.uuid4()] and [datetime.utcnow()] read an explicit [World]. *)

From Stdlib Require Import QArith Floats.
From stdpp Require Import gmap strings list fin_maps sorting.

Local Open Scope string_scope.
Local Open Scope list_scope.

(** ** Identifiers, time, JSON documents *)

(** A [UUID] is a 128-bit number, a [datetime] a count of microseconds. *)
Definition UUID := N.
Definition datetime := Z.

Bind Scope N_scope with UUID.
Bind Scope Z_scope with datetime.

#[local] Set Warnings "-register-all".

(** [JsonDict = Dict[str, Any]] (models/types.py); a dictionary keeps its
    insertion order, as Python's does. *)
Inductive Json : Type :=
  | JNull
  | JBool (b : bool)
  | JInt (z : Z)
  | JFloat (q : Q)
  | JStr (s : string)
  | JList (l : list Json)
  | JDict (kv : list (string * Json)).

(** Python truth value of an optional payload: [None], [""], [{}], [[]],
    [0], [0.0] and [False] are falsy. *)
Definition truthy (v : Json) : bool :=
  match v with
  | JNull => false
  | JBool b => b
  | JInt z => negb (z =? 0)%Z
  | JFloat q => negb (Qeq_bool q 0)
  | JStr s => negb (String.eqb s "")
  | JList l => match l with [] => false | _ => true end
  | JDict kv => match kv with [] => false | _ => true end
  end.

Definition truthy_opt (v : option Json) : bool :=
  match v with
  | None => false
  | Some j => truthy j
  end.

(** ** Enumerations (models/enums.py) *)

Inductive ClaimStatus : Set :=
  | SUBMITTED | UNDER_REVIEW | ADDITIONAL_INFO_NEEDED | APPROVED
  | PARTIALLY_APPROVED | DENIED | APPEALED | SETTLED | CLOSED.

Inductive SuggestionType : Set :=
  | APPROVE_CLAIM | DENY_CLAIM | REQUEST_INFO | FLAG_FRAUD
  | ADJUST_AMOUNT | REPLACE_ITEM | REPAIR_ITEM.

Inductive SuggestionStatus : Set :=
  | PENDING | ACCEPTED | REJECTED | MODIFIED.

#[global] Instance SuggestionType_eq_dec : EqDecision SuggestionType.
Proof. solve_decision. Defined.

#[global] Instance SuggestionStatus_eq_dec : EqDecision SuggestionStatus.
Proof. solve_decision. Defined.

(** The string value of each member, as the [StrEnum] declares it. *)
Definition SuggestionType_value (t : SuggestionType) : string :=
  match t with
  | APPROVE_CLAIM => "approve_claim"
  | DENY_CLAIM => "deny_claim"
  | REQUEST_INFO => "request_info"
  | FLAG_FRAUD => "flag_fraud"
  | ADJUST_AMOUNT => "adjust_amount"
  | REPLACE_ITEM => "replace_item"
  | REPAIR_ITEM => "repair_item"
  end.

Definition SuggestionStatus_value (s : SuggestionStatus) : string :=
  match s with
  | PENDING => "pending"
  | ACCEPTED => "accepted"
  | REJECTED => "rejected"
  | MODIFIED => "modified"
  end.

Definition all_suggestion_types : list SuggestionType :=
  [APPROVE_CLAIM; DENY_CLAIM; REQUEST_INFO; FLAG_FRAUD;
   ADJUST_AMOUNT; REPLACE_ITEM; REPAIR_ITEM].

(** ** Records (models/schemas.py) *)

Module Address.
Record t : Type := mk {
  street : string;
  city : string;
  state : string;
  zipcode : string;
  country : string
}.
End Address.

Module ClaimItem.
Record t : Type := mk {
  name : string;
  description : string;
  category : string;
  estimated_value : Q;
  purchase_date : option datetime;
  replacement_cost : option Q
}.
End ClaimItem.

Module Claim.
Record t : Type := mk {
  policy_number : string;
  policyholder_name : string;
  date_of_loss : datetime;
  description : string;
  total_amount : Q;
  incident_location : Address.t;
  items : list ClaimItem.t;
  id : UUID;
  status : ClaimStatus;
  created_at : datetime;
  updated_at : datetime;
  assigned_adjuster : option string;
  supporting_documents : option (list string);
  video_evidence : option string;
  ml_processing_results : option Json
}.
End Claim.

Module AISuggestion.
Record t : Type := mk {
  id : UUID;
  claim_id : UUID;
  type : SuggestionType;
  description : string;
  confidence_score : Q;
  ai_explanation : string;
  suggested_action : Json;
  status : SuggestionStatus;
  created_at : datetime;
  reviewed_at : option datetime;
  reviewer_id : option UUID;
  reviewer_notes : option string;
  model_version : string
}.
End AISuggestion.

Module SuggestionReview.
Record t : Type := mk {
  suggestion_id : UUID;
  status : SuggestionStatus;
  reviewer_id : UUID;
  reviewer_notes : option string;
  modified_action : option Json
}.
End SuggestionReview.

(** ** Failures *)

Inductive Error : Type :=
  | HTTPException (status_code : Z) (detail : string)
  | AttributeError (attribute : string)
  | IntegrityError.

Inductive result (A : Type) : Type :=
  | Ok (a : A)
  | Raise (e : Error).

Arguments Ok {A} a.
Arguments Raise {A} e.

(** ** The environment of [uuid.uuid4()] and [datetime.utcnow()]

    Both calls read the outside world: the identifiers and the clock
    readings are given once and for all by two oracles, and the state
    counts how many of each were consumed. *)

Record World : Type := mkWorld {
  uuid_source : nat -> UUID;
  uuid_drawn : nat;
  clock_source : nat -> datetime;
  clock_read : nat
}.

Definition IO (A : Type) : Type := World -> A * World.

Definition io_ret {A} (a : A) : IO A := fun w => (a, w).

Definition io_bind {A B} (m : IO A) (k : A -> IO B) : IO B :=
  fun w => let (a, w') := m w in k a w'.

Declare Scope io_scope.
Delimit Scope io_scope with io.
Notation "x <- m ;; k" := (io_bind m (fun x => k))
  (at level 100, m at next level, right associativity) : io_scope.

Definition uuid4 : IO UUID :=
  fun w => (uuid_source w (uuid_drawn w),
            mkWorld (uuid_source w) (S (uuid_drawn w))
                    (clock_source w) (clock_read w)).

Definition utcnow : IO datetime :=
  fun w => (clock_source w (clock_read w),
            mkWorld (uuid_source w) (uuid_drawn w)
                    (clock_source w) (S (clock_read w))).

(** ** AIService (services/ai_service.py) *)

(** [x > y] on floats. *)
Definition Qgtb (x y : Q) : bool :=
  match (x ?= y)%Q with
  | Gt => true
  | _ => false
  end.

(** [len(xs) > n]. *)
Definition len_gt {A} (xs : list A) (n : nat) : bool :=
  (n <? length xs)%nat.

Definition fallback_model_version : string := "fallback-v1".

Definition high_value_action (claim : Claim.t) : Json :=
  JDict [("action", JStr "review");
         ("reason", JStr "high_value");
         ("threshold", JInt 10000);
         ("current_amount", JFloat (Claim.total_amount claim))].

Definition fraud_indicators (claim : Claim.t) : list Json :=
  [JStr (if Qgtb (Claim.total_amount claim) 50000
         then "high_amount" else "excessive_items")].

Definition fraud_action (claim : Claim.t) : Json :=
  JDict [("action", JStr "investigate");
         ("indicators", JList (fraud_indicators claim));
         ("risk_level", JStr "medium")].

Definition approve_action (claim : Claim.t) : Json :=
  JDict [("action", JStr "approve");
         ("total_amount", JFloat (Claim.total_amount claim))].

(** [AISuggestion(id=uuid.uuid4(), ..., status=PENDING,
    created_at=datetime.utcnow(), model_version="fallback-v1")]: the
    keyword arguments are evaluated in the order written. *)
Definition new_fallback_suggestion (claim : Claim.t) (ty : SuggestionType)
    (descr : string) (score : Q) (expl : string) (action : Json)
    : IO AISuggestion.t :=
  (i <- uuid4 ;;
   now <- utcnow ;;
   io_ret (AISuggestion.mk i (Claim.id claim) ty descr score expl action
             PENDING now None None None fallback_model_version))%io.

(** [suggestions.append(...)] under a condition. *)
Definition append_if (b : bool) (mk : IO AISuggestion.t)
    (suggestions : list AISuggestion.t) : IO (list AISuggestion.t) :=
  if b then (s <- mk ;; io_ret (suggestions ++ [s]))%io
  else io_ret suggestions.

Definition _fallback_analysis (claim : Claim.t) : IO (list AISuggestion.t) :=
  (let suggestions := [] in
   (* Basic amount analysis *)
   suggestions <- append_if (Qgtb (Claim.total_amount claim) 10000)
     (new_fallback_suggestion claim ADJUST_AMOUNT
        "High-value claim detected" 0.85
        "Claim amount exceeds normal threshold"
        (high_value_action claim)) suggestions ;;
   (* Basic fraud check *)
   suggestions <- append_if (Qgtb (Claim.total_amount claim) 50000
                             || len_gt (Claim.items claim) 10)
     (new_fallback_suggestion claim FLAG_FRAUD
        "Potential fraud indicators detected" 0.75
        "Unusual claim characteristics detected"
        (fraud_action claim)) suggestions ;;
   (* Basic overall recommendation *)
   suggestions <- append_if true
     (new_fallback_suggestion claim APPROVE_CLAIM
        "Basic claim recommendation" 0.80
        "Initial review suggests approval pending detailed analysis"
        (approve_action claim)) suggestions ;;
   io_ret suggestions)%io.

(** ** BaseRepository (repositories/base.py)

    The table of the mapped class, keyed by its primary key. *)

Abbreviation Session := (gmap UUID AISuggestion.t).

(** Every row is stored under its own [id]. *)
Definition Session_wf (db : Session) : Prop :=
  map_Forall (fun k s => AISuggestion.id s = k) db.

(** [self.db.query(self.model)...all()] without [order_by]: the rows in
    the order the table yields them. *)
Definition rows (db : Session) : list AISuggestion.t :=
  (map_to_list db).*2.

Definition get (db : Session) (id : UUID) : option AISuggestion.t :=
  db !! id.

(** One [setattr(db_obj, key, value)] per column of an update dictionary
    that does not hold the primary key, as the dictionary of
    [update_status]; [Field], further down, adds the key. *)
Inductive Assignment : Type :=
  | Set_claim_id (v : UUID)
  | Set_type (v : SuggestionType)
  | Set_description (v : string)
  | Set_confidence_score (v : Q)
  | Set_ai_explanation (v : string)
  | Set_suggested_action (v : Json)
  | Set_status (v : SuggestionStatus)
  | Set_created_at (v : datetime)
  | Set_reviewed_at (v : option datetime)
  | Set_reviewer_id (v : option UUID)
  | Set_reviewer_notes (v : option string)
  | Set_model_version (v : string).

Definition setattr (o : AISuggestion.t) (a : Assignment) : AISuggestion.t :=
  let '(AISuggestion.mk i c ty d cs ex act st cr ra ri rn mv) := o in
  match a with
  | Set_claim_id v => AISuggestion.mk i v ty d cs ex act st cr ra ri rn mv
  | Set_type v => AISuggestion.mk i c v d cs ex act st cr ra ri rn mv
  | Set_description v => AISuggestion.mk i c ty v cs ex act st cr ra ri rn mv
  | Set_confidence_score v =>
      AISuggestion.mk i c ty d v ex act st cr ra ri rn mv
  | Set_ai_explanation v =>
      AISuggestion.mk i c ty d cs v act st cr ra ri rn mv
  | Set_suggested_action v =>
      AISuggestion.mk i c ty d cs ex v st cr ra ri rn mv
  | Set_status v => AISuggestion.mk i c ty d cs ex act v cr ra ri rn mv
  | Set_created_at v => AISuggestion.mk i c ty d cs ex act st v ra ri rn mv
  | Set_reviewed_at v => AISuggestion.mk i c ty d cs ex act st cr v ri rn mv
  | Set_reviewer_id v => AISuggestion.mk i c ty d cs ex act st cr ra v rn mv
  | Set_reviewer_notes v =>
      AISuggestion.mk i c ty d cs ex act st cr ra ri v mv
  | Set_model_version v =>
      AISuggestion.mk i c ty d cs ex act st cr ra ri rn v
  end.

(** Modelled from the spec: the session and its table (app.database) are
    not in the sources; the specification makes [id] the unique identifier
    of a suggestion, so the table refuses a second row under a stored [id].
    The rest is the source's [create]: [self.model], applied to the
    dictionary, builds the record of schemas.py, which checks no field, and
    the object is added, committed, refreshed and returned. *)
Definition create (db : Session) (obj_in : AISuggestion.t)
    : Session * result AISuggestion.t :=
  let db_obj := obj_in in
  match db !! AISuggestion.id db_obj with
  | Some _ => (db, Raise IntegrityError)
  | None => (<[AISuggestion.id db_obj := db_obj]> db, Ok db_obj)
  end.

Definition update (db : Session) (id : UUID) (obj_in : list Assignment)
    : Session * option AISuggestion.t :=
  match get db id with
  | Some db_obj =>
      let db_obj := foldl setattr db_obj obj_in in
      (<[id := db_obj]> db, Some db_obj)
  | None => (db, None)
  end.

Definition delete (db : Session) (id : UUID) : Session * bool :=
  match get db id with
  | Some _ => (base.delete id db, true)
  | None => (db, false)
  end.

Definition exists_ (db : Session) (id : UUID) : bool :=
  match db !! id with
  | Some _ => true
  | None => false
  end.

(** ** SuggestionRepository (repositories/suggestion_repository.py) *)

(** [order_by(created_at.desc())]. *)
Definition created_desc (x y : AISuggestion.t) : Prop :=
  (AISuggestion.created_at y <= AISuggestion.created_at x)%Z.

#[global] Instance created_desc_dec x y : Decision (created_desc x y).
Proof. unfold created_desc. apply Z.le_dec. Defined.

Definition get_by_claim (db : Session) (claim_id : UUID)
    : list AISuggestion.t :=
  merge_sort created_desc
    (filter (fun s => AISuggestion.claim_id s = claim_id) (rows db)).

Definition get_by_status (db : Session) (status : SuggestionStatus)
    : list AISuggestion.t :=
  filter (fun s => AISuggestion.status s = status) (rows db).

Definition get_by_type (db : Session) (type : SuggestionType)
    : list AISuggestion.t :=
  filter (fun s => AISuggestion.type s = type) (rows db).

(** An absent filter is [None]; a UUID and a non-empty enumeration value
    are always truthy. *)
Definition get_with_filters (db : Session) (claim_id : option UUID)
    (status : option SuggestionStatus) (type : option SuggestionType)
    : list AISuggestion.t :=
  let query := rows db in
  let query :=
    match claim_id with
    | Some c => filter (fun s => AISuggestion.claim_id s = c) query
    | None => query
    end in
  let query :=
    match status with
    | Some st => filter (fun s => AISuggestion.status s = st) query
    | None => query
    end in
  let query :=
    match type with
    | Some ty => filter (fun s => AISuggestion.type s = ty) query
    | None => query
    end in
  merge_sort created_desc query.

(** [func.now()] is the database clock when the update executes: the
    reading [now] is an input. *)
Definition update_status (db : Session) (now : datetime)
    (suggestion_id : UUID) (status : SuggestionStatus) (reviewer_id : UUID)
    (reviewer_notes : option string) (modified_action : option Json)
    : Session * option AISuggestion.t :=
  let update_data :=
    [Set_status status;
     Set_reviewer_id (Some reviewer_id);
     Set_reviewer_notes reviewer_notes;
     Set_reviewed_at (Some now)] in
  let update_data :=
    match modified_action with
    | Some action =>
        if truthy action
        then update_data ++ [Set_suggested_action action]
        else update_data
    | None => update_data
    end in
  update db suggestion_id update_data.

Record Metrics : Type := mkMetrics {
  total_suggestions : nat;
  acceptance_rate : float;
  rejection_rate : float;
  modification_rate : float;
  suggestions_by_type : list (SuggestionType * nat)
}.

(** [func.count(id)] over the rows with a given status. *)
Definition count_status (db : Session) (st : SuggestionStatus) : nat :=
  length (filter (fun s => AISuggestion.status s = st) (rows db)).

Definition count_type (db : Session) (ty : SuggestionType) : nat :=
  length (filter (fun s => AISuggestion.type s = ty) (rows db)).

(** [group_by(type)]: one pair per type that occurs. *)
Definition group_by_type (db : Session) : list (SuggestionType * nat) :=
  filter (fun p => (0 < p.2)%nat)
    (map (fun ty => (ty, count_type db ty)) all_suggestion_types).

(** The binary64 number of a count; the conversion is exact below 2^53. *)
Definition float_of_count (n : nat) : float :=
  PrimFloat.of_uint63 (Uint63.of_Z (Z.of_nat n)).

(** [n / total if total > 0 else 0].  The true division of two integers
    below 2^53 is the binary64 quotient of the two numbers, rounded to the
    nearest; the integer 0 of the other branch is the zero of the floats. *)
Definition rate (n total : nat) : float :=
  if (0 <? total)%nat
  then (float_of_count n / float_of_count total)%float
  else 0%float.

Definition get_metrics (db : Session) : Metrics :=
  let total := length (rows db) in
  let accepted := count_status db ACCEPTED in
  let rejected := count_status db REJECTED in
  let modified := count_status db MODIFIED in
  let by_type := group_by_type db in
  {| total_suggestions := total;
     acceptance_rate := rate accepted total;
     rejection_rate := rate rejected total;
     modification_rate := rate modified total;
     suggestions_by_type := by_type |}.

(** [confidence_score >= threshold]. *)
Definition get_high_confidence_suggestions (db : Session) (threshold : Q)
    : list AISuggestion.t :=
  filter (fun s => Qle_bool threshold (AISuggestion.confidence_score s) = true)
    (rows db).

Definition get_pending_suggestions (db : Session) : list AISuggestion.t :=
  get_by_status db PENDING.

(** ** SuggestionsService (services/suggestions_service.py) *)

Definition create_suggestion (db : Session) (suggestion_data : AISuggestion.t)
    : Session * result AISuggestion.t :=
  create db suggestion_data.

Definition get_suggestion (db : Session) (suggestion_id : UUID)
    : option AISuggestion.t :=
  get db suggestion_id.

Definition delete_suggestion (db : Session) (suggestion_id : UUID)
    : Session * bool :=
  delete db suggestion_id.

Definition update_suggestion_status (db : Session) (now : datetime)
    (suggestion_id : UUID) (status : SuggestionStatus) (reviewer_id : UUID)
    (reviewer_notes : option string) (modified_action : option Json)
    : Session * option AISuggestion.t :=
  update_status db now suggestion_id status reviewer_id reviewer_notes
    modified_action.

Definition get_suggestion_metrics (db : Session) : Metrics :=
  get_metrics db.

(** [for suggestion in existing_suggestions:
       self.suggestion_repository.delete(suggestion.id)] *)
Definition delete_each (db : Session) (existing : list AISuggestion.t)
    : Session :=
  foldl (fun db suggestion => (delete db (AISuggestion.id suggestion)).1)
    db existing.

Section Regeneration.

(** [self.ai_service.generate_suggestions]: the service is handed its
    generator at construction (dependencies.get_suggestions_service).
    An [AIService] is built without a session, so the call has the claim
    identifier as its only input and either returns a batch or raises. *)
Variable generate_suggestions : UUID -> result (list AISuggestion.t).

Definition regenerate_suggestions (db : Session) (claim_id : UUID)
    : Session * result (list AISuggestion.t) :=
  (* Delete existing suggestions for the claim *)
  let existing_suggestions := get_by_claim db claim_id in
  let db := delete_each db existing_suggestions in
  (* Generate new suggestions *)
  (db, generate_suggestions claim_id).

End Regeneration.

(** The class [AIService] of ai_service.py defines [analyze_claim] and
    [_fallback_analysis] and the attributes [client] and [model_version];
    looking up [generate_suggestions] on an instance raises. *)
Definition AIService_generate_suggestions (claim_id : UUID)
    : result (list AISuggestion.t) :=
  Raise (AttributeError "generate_suggestions").

(** ** Routes (api/routes/suggestions.py) *)

(** [POST /{suggestion_id}/review]. *)
Definition review_suggestion (db : Session) (suggestion_id : UUID)
    (review : SuggestionReview.t) : IO (Session * result AISuggestion.t) :=
  match db !! suggestion_id with
  | None => io_ret (db, Raise (HTTPException 404 "Suggestion not found"))
  | Some suggestion =>
      if decide (AISuggestion.status suggestion <> PENDING)
      then io_ret (db, Raise (HTTPException 400
                                "Suggestion has already been reviewed"))
      else
        (let suggestion :=
           setattr suggestion (Set_status (SuggestionReview.status review)) in
         let suggestion :=
           setattr suggestion
             (Set_reviewer_id (Some (SuggestionReview.reviewer_id review))) in
         let suggestion :=
           setattr suggestion
             (Set_reviewer_notes (SuggestionReview.reviewer_notes review)) in
         now <- utcnow ;;
         let suggestion := setattr suggestion (Set_reviewed_at (Some now)) in
         let suggestion :=
           match SuggestionReview.modified_action review with
           | Some action =>
               if truthy action
               then setattr suggestion (Set_suggested_action action)
               else suggestion
           | None => suggestion
           end in
         io_ret (<[suggestion_id := suggestion]> db, Ok suggestion))%io
  end.

(** [PATCH /{suggestion_id}/status]. *)
Definition update_suggestion_status_route (db : Session) (now : datetime)
    (suggestion_id : UUID) (status : SuggestionStatus) (reviewer_id : UUID)
    (reviewer_notes : option string) (modified_action : option Json)
    : Session * result AISuggestion.t :=
  match update_suggestion_status db now suggestion_id status reviewer_id
          reviewer_notes modified_action with
  | (db, Some updated_suggestion) => (db, Ok updated_suggestion)
  | (db, None) => (db, Raise (HTTPException 404 "Suggestion not found"))
  end.

(** [GET /metrics] of the route stubs: the same counts and the same three
    divisions as [get_metrics].  The counts by type are asked through
    [db.func], an attribute looked up on the session; the class of the
    session is SQLAlchemy's and not in the sources, so the outcome of that
    lookup is an input, [inl] with the text of the exception when it raises.
    Every exception is answered with 500 and its text. *)
Definition get_suggestion_metrics_route (db_func : string + unit)
    (db : Session) : result Metrics :=
  let total := length (rows db) in
  let accepted_suggestions := count_status db ACCEPTED in
  let rejected_suggestions := count_status db REJECTED in
  let modified_suggestions := count_status db MODIFIED in
  match db_func with
  | inr _ =>
      Ok (mkMetrics total
            (rate accepted_suggestions total)
            (rate rejected_suggestions total)
            (rate modified_suggestions total)
            (group_by_type db))
  | inl e => Raise (HTTPException 500 e)
  end.

(** ** Sample data *)

Definition sample_suggestion (id claim_id : UUID) (ty : SuggestionType)
    (score : Q) (st : SuggestionStatus) (created : datetime)
    : AISuggestion.t :=
  AISuggestion.mk id claim_id ty "Test suggestion" score
    "High confidence in damage assessment"
    (JDict [("action", JStr "Schedule inspection")])
    st created None None None "gpt-4-turbo-preview".

Definition sample_address : Address.t :=
  Address.mk "123 Main St" "Springfield" "IL" "62701" "US".

Definition sample_item : ClaimItem.t :=
  ClaimItem.mk "Sofa" "Three-seat sofa" "furniture" 1200 None None.

Definition sample_claim (amount : Q) (n_items : nat) : Claim.t :=
  Claim.mk "POL123" "John Doe" 0 "Water damage in kitchen" amount
    sample_address (replicate n_items sample_item) 7 SUBMITTED 0 0
    None None None None.

Definition sample_world : World :=
  mkWorld (fun n => N.of_nat (100 + n)) 0 (fun n => Z.of_nat (1000 + n)) 0.

(** A table with three suggestions: two of claim 7, one of them already
    accepted, and one of claim 8. *)
Definition accepted_suggestion : AISuggestion.t :=
  AISuggestion.mk 1 7 APPROVE_CLAIM "Test suggestion" 0.80
    "High confidence in damage assessment"
    (JDict [("action", JStr "Schedule inspection")])
    ACCEPTED 10 (Some 15%Z) (Some 55%N) (Some "First review")
    "gpt-4-turbo-preview".

Definition sample_db : Session :=
  <[1%N := accepted_suggestion]>
    (<[2%N := sample_suggestion 2 7 FLAG_FRAUD 0.95 PENDING 20]>
       (<[3%N := sample_suggestion 3 8 ADJUST_AMOUNT 0.5 PENDING 30]> ∅)).

(** A suggestion whose confidence score is 1.5. *)
Definition overconfident_suggestion : AISuggestion.t :=
  sample_suggestion 4 7 APPROVE_CLAIM 1.5 PENDING 40.

(** A freshly generated batch for claim 7. *)
Definition fresh_batch : list AISuggestion.t :=
  (_fallback_analysis (sample_claim 15000 3) sample_world).1.

(** ** [BaseRepository.update] with any dictionary

    The dictionary given to [update] may hold any attribute, the primary
    key [id] among them: [setattr] is called for every key. *)

Inductive Field : Type :=
  | Column (a : Assignment)
  | Set_id (v : UUID).

Definition setattr_field (o : AISuggestion.t) (f : Field) : AISuggestion.t :=
  match f with
  | Column a => setattr o a
  | Set_id v =>
      let '(AISuggestion.mk _ c ty d cs ex act st cr ra ri rn mv) := o in
      AISuggestion.mk v c ty d cs ex act st cr ra ri rn mv
  end.

(** Whether the dictionary has the key [id]. *)
Definition assigns_id (obj_in : list Field) : bool :=
  existsb (fun f => match f with Set_id _ => true | Column _ => false end)
    obj_in.

(** The commit writes the row back under its primary key: under the
    identifier it was fetched by when the dictionary has no [id], under the
    new value of [id] otherwise, so that the row moves.  Modelled from the
    spec, as for [create]: the table (app.database) is not in the sources,
    and it refuses to move a row onto the identifier of another one. *)
Definition update_fields (db : Session) (id : UUID) (obj_in : list Field)
    : Session * result (option AISuggestion.t) :=
  match get db id with
  | Some db_obj =>
      let db_obj := foldl setattr_field db_obj obj_in in
      let key := if assigns_id obj_in then AISuggestion.id db_obj else id in
      if decide (key = id) then (<[id := db_obj]> db, Ok (Some db_obj))
      else
        match db !! key with
        | Some _ => (db, Raise IntegrityError)
        | None => (<[key := db_obj]> (base.delete id db), Ok (Some db_obj))
        end
  | None => (db, Ok None)
  end.

(** ** Further routes and service methods *)

(** [GET /claims/{claim_id}/suggestions]. *)
Definition list_claim_suggestions (db : Session) (claim_id : UUID)
    (status : option SuggestionStatus) : list AISuggestion.t :=
  let query :=
    filter (fun s => AISuggestion.claim_id s = claim_id) (rows db) in
  let query :=
    match status with
    | Some st => filter (fun s => AISuggestion.status s = st) query
    | None => query
    end in
  merge_sort created_desc query.

(** [GET /{suggestion_id}]. *)
Definition get_suggestion_route (db : Session) (suggestion_id : UUID)
    : result AISuggestion.t :=
  match get_suggestion db suggestion_id with
  | Some suggestion => Ok suggestion
  | None => Raise (HTTPException 404 "Suggestion not found")
  end.

(** [SuggestionsService.update_suggestion]: the dictionary holds the fields
    that were set. *)
Definition update_suggestion (db : Session) (suggestion_id : UUID)
    (suggestion_data : list Assignment) : Session * option AISuggestion.t :=
  update db suggestion_id suggestion_data.

(** [PUT /{suggestion_id}]. *)
Definition update_suggestion_route (db : Session) (suggestion_id : UUID)
    (suggestion : list Assignment) : Session * result AISuggestion.t :=
  match update_suggestion db suggestion_id suggestion with
  | (db, Some updated_suggestion) => (db, Ok updated_suggestion)
  | (db, None) => (db, Raise (HTTPException 404 "Suggestion not found"))
  end.

(** [DELETE /{suggestion_id}]: the answer is the message. *)
Definition delete_suggestion_route (db : Session) (suggestion_id : UUID)
    : Session * result string :=
  match delete_suggestion db suggestion_id with
  | (db, true) => (db, Ok "Suggestion deleted successfully")
  | (db, false) => (db, Raise (HTTPException 404 "Suggestion not found"))
  end.

(** ** VideoService (services/video_service.py) *)

Definition allowed_mime_types : list string :=
  ["video/mp4"; "video/quicktime"; "video/x-msvideo"; "video/x-matroska"].

(** 100MB. *)
Definition max_video_size : Z := 100 * 1024 * 1024.

(** 5 minutes. *)
Definition max_video_duration : Q := 300.

(** What [validate_video] reads of the file at [file_path]: the MIME type
    that libmagic reports, the size in bytes and the duration of the clip
    in seconds. *)
Record VideoFile : Type := mkVideoFile {
  file_type : string;
  file_size : Z;
  clip_duration : Q
}.

Inductive ValueError : Type :=
  | mkValueError (message : string).

(** The three checks in the order of the source; the function returns
    [True] or raises. *)
Definition validate_video (file : VideoFile) : ValueError + bool :=
  (* Check file type *)
  if negb (bool_decide (file_type file ∈ allowed_mime_types))
  then inl (mkValueError ("Unsupported video format: " ++ file_type file))
  (* Check file size *)
  else if (max_video_size <? file_size file)%Z
  then inl (mkValueError "Video file too large. Maximum size is 100.0MB")
  (* Check video duration *)
  else if Qgtb (clip_duration file) max_video_duration
  then inl (mkValueError "Video too long. Maximum duration is 300 seconds")
  else inr true.

(** A table of 28 suggestions of claim 7, numbered 1 to 28: the first nine
    accepted, the next eighteen rejected, the last one modified. *)
Definition rounding_status (n : nat) : SuggestionStatus :=
  if (n <=? 9)%nat then ACCEPTED
  else if (n <=? 27)%nat then REJECTED
  else MODIFIED.

Definition rounding_db : Session :=
  list_to_map
    (map (fun n => (N.of_nat n,
                    sample_suggestion (N.of_nat n) 7 APPROVE_CLAIM 0.80
                      (rounding_status n) (Z.of_nat n)))
       (seq 1 28)).

(** * Properties *)

(** ** The fallback generator *)

Section FallbackFacts.

Lemma Qgtb_true (x y : Q) : Qgtb x y = true <-> (y < x)%Q.
Proof.
  unfold Qgtb. rewrite Qgt_alt.
  destruct (x ?= y)%Q; split; congruence.
Qed.

Lemma Qgtb_false (x y : Q) : Qgtb x y = false <-> (x <= y)%Q.
Proof.
  rewrite Qle_alt. unfold Qgtb.
  destruct (x ?= y)%Q; split; congruence.
Qed.

Lemma Qgtb_Qeq (x x' y : Q) : (x == x')%Q -> Qgtb x y = Qgtb x' y.
Proof. intros E. unfold Qgtb. now rewrite E. Qed.

Lemma len_gt_true {A} (xs : list A) (n : nat) :
  len_gt xs n = true <-> (n < length xs)%nat.
Proof. unfold len_gt. apply Nat.ltb_lt. Qed.

(** The three rules, one after the other, on the outcome of the two
    tests of the source; only the identifiers and the clock readings
    depend on the world. *)
Lemma fallback_rules (claim : Claim.t) (w : World) :
  exists (i1 i2 i3 : UUID) (t1 t2 t3 : datetime),
    (_fallback_analysis claim w).1 =
      (if Qgtb (Claim.total_amount claim) 10000
       then [AISuggestion.mk i1 (Claim.id claim) ADJUST_AMOUNT
               "High-value claim detected" 0.85
               "Claim amount exceeds normal threshold"
               (high_value_action claim)
               PENDING t1 None None None "fallback-v1"]
       else [])
      ++ (if Qgtb (Claim.total_amount claim) 50000
             || len_gt (Claim.items claim) 10
          then [AISuggestion.mk i2 (Claim.id claim) FLAG_FRAUD
                  "Potential fraud indicators detected" 0.75
                  "Unusual claim characteristics detected"
                  (fraud_action claim)
                  PENDING t2 None None None "fallback-v1"]
          else [])
      ++ [AISuggestion.mk i3 (Claim.id claim) APPROVE_CLAIM
            "Basic claim recommendation" 0.80
            "Initial review suggests approval pending detailed analysis"
            (approve_action claim)
            PENDING t3 None None None "fallback-v1"].
Proof.
  unfold _fallback_analysis.
  destruct (Qgtb (Claim.total_amount claim) 10000);
    destruct (Qgtb (Claim.total_amount claim) 50000
              || len_gt (Claim.items claim) 10);
    cbn; repeat eexists.
  Unshelve. all: first [exact 0%N | exact 0%Z].
Qed.

Lemma len_gt_false {A} (xs : list A) (n : nat) :
  len_gt xs n = false <-> (length xs <= n)%nat.
Proof. unfold len_gt. apply Nat.ltb_ge. Qed.

(** The second rule fires exactly on its test. *)
Lemma fallback_fraud_emitted (claim : Claim.t) (w : World) :
  Qgtb (Claim.total_amount claim) 50000 || len_gt (Claim.items claim) 10
    = true ->
  exists s : AISuggestion.t,
    s ∈ (_fallback_analysis claim w).1
    /\ AISuggestion.type s = FLAG_FRAUD
    /\ AISuggestion.confidence_score s = 0.75%Q
    /\ AISuggestion.suggested_action s = fraud_action claim.
Proof.
  intros Hcond.
  destruct (fallback_rules claim w) as (i1 & i2 & i3 & t1 & t2 & t3 & ->).
  rewrite Hcond. eexists. split.
  - apply elem_of_app. right. apply elem_of_app. left.
    apply elem_of_cons. left. reflexivity.
  - repeat split.
Qed.

Lemma fallback_fraud_absent (claim : Claim.t) (w : World) :
  Qgtb (Claim.total_amount claim) 50000 || len_gt (Claim.items claim) 10
    = false ->
  forall s : AISuggestion.t,
    s ∈ (_fallback_analysis claim w).1 -> AISuggestion.type s <> FLAG_FRAUD.
Proof.
  intros Hcond s.
  destruct (fallback_rules claim w) as (i1 & i2 & i3 & t1 & t2 & t3 & ->).
  rewrite Hcond.
  destruct (Qgtb (Claim.total_amount claim) 10000); cbn;
    intros Hin;
    repeat match goal with
           | H : _ ∈ _ :: _ |- _ => apply elem_of_cons in H as [-> | H]
           | H : _ ∈ [] |- _ => apply elem_of_nil in H; contradiction
           end; discriminate.
Qed.

End FallbackFacts.

(** C4: for a claim with [total_amount = 15000] and 3 items the fallback
    generator yields exactly two candidates: an [adjust_amount] one with
    confidence 0.85, the explanation "Claim amount exceeds normal
    threshold" and the action [{action: "review", reason: "high_value",
    threshold: 10000, current_amount: 15000}], then an [approve_claim] one
    with confidence 0.80; none of them is a [flag_fraud]. *)
Theorem C4_fallback_15000_three_items (claim : Claim.t) (w : World) :
  (Claim.total_amount claim == 15000)%Q ->
  length (Claim.items claim) = 3%nat ->
  exists s1 s2 : AISuggestion.t,
    (_fallback_analysis claim w).1 = [s1; s2]
    /\ AISuggestion.type s1 = ADJUST_AMOUNT
    /\ AISuggestion.confidence_score s1 = 0.85%Q
    /\ AISuggestion.ai_explanation s1 =
         "Claim amount exceeds normal threshold"
    /\ AISuggestion.suggested_action s1 =
         JDict [("action", JStr "review");
                ("reason", JStr "high_value");
                ("threshold", JInt 10000);
                ("current_amount", JFloat (Claim.total_amount claim))]
    /\ AISuggestion.type s2 = APPROVE_CLAIM
    /\ AISuggestion.confidence_score s2 = 0.80%Q
    /\ AISuggestion.type s1 <> FLAG_FRAUD
    /\ AISuggestion.type s2 <> FLAG_FRAUD.
Proof.
  intros Hamount Hitems.
  destruct (fallback_rules claim w) as (i1 & i2 & i3 & t1 & t2 & t3 & ->).
  rewrite !(Qgtb_Qeq _ _ _ Hamount).
  unfold len_gt. rewrite Hitems. cbn.
  do 2 eexists. split; [reflexivity |]. cbn.
  repeat split; discriminate.
Qed.

Lemma C4_fallback_15000_three_items_witness :
  (Claim.total_amount (sample_claim 15000 3) == 15000)%Q
  /\ length (Claim.items (sample_claim 15000 3)) = 3%nat
  /\ exists s1 s2 : AISuggestion.t,
       (_fallback_analysis (sample_claim 15000 3) sample_world).1 = [s1; s2]
       /\ AISuggestion.type s1 = ADJUST_AMOUNT
       /\ AISuggestion.confidence_score s1 = 0.85%Q
       /\ AISuggestion.ai_explanation s1 =
            "Claim amount exceeds normal threshold"
       /\ AISuggestion.suggested_action s1 =
            JDict [("action", JStr "review");
                   ("reason", JStr "high_value");
                   ("threshold", JInt 10000);
                   ("current_amount",
                    JFloat (Claim.total_amount (sample_claim 15000 3)))]
       /\ AISuggestion.type s2 = APPROVE_CLAIM
       /\ AISuggestion.confidence_score s2 = 0.80%Q
       /\ AISuggestion.type s1 <> FLAG_FRAUD
       /\ AISuggestion.type s2 <> FLAG_FRAUD.
Proof.
  split; [reflexivity |]. split; [reflexivity |].
  apply (C4_fallback_15000_three_items (sample_claim 15000 3) sample_world);
    reflexivity.
Defined.

(** C5: for a claim with [total_amount = 60000] and 2 items the fallback
    generator yields exactly three candidates, the second a [flag_fraud]
    with confidence 0.75 whose indicators are ["high_amount"].  For every
    claim: an amount above 50000 yields a [flag_fraud] candidate with the
    indicator "high_amount"; an amount of at most 50000 with more than 10
    items yields one with the indicator "excessive_items"; an amount of at
    most 50000 with at most 10 items yields none; and every [flag_fraud]
    candidate there is carries the one or the other indicator
    accordingly. *)
Theorem C5_fallback_fraud_indicator (claim : Claim.t) (w : World) :
  ((Claim.total_amount claim == 60000)%Q ->
   length (Claim.items claim) = 2%nat ->
   exists s1 s2 s3 : AISuggestion.t,
     (_fallback_analysis claim w).1 = [s1; s2; s3]
     /\ AISuggestion.type s2 = FLAG_FRAUD
     /\ AISuggestion.confidence_score s2 = 0.75%Q
     /\ AISuggestion.suggested_action s2 =
          JDict [("action", JStr "investigate");
                 ("indicators", JList [JStr "high_amount"]);
                 ("risk_level", JStr "medium")])
  /\ (forall s : AISuggestion.t,
        s ∈ (_fallback_analysis claim w).1 ->
        AISuggestion.type s = FLAG_FRAUD ->
        ((50000 < Claim.total_amount claim)%Q
         /\ AISuggestion.suggested_action s =
              JDict [("action", JStr "investigate");
                     ("indicators", JList [JStr "high_amount"]);
                     ("risk_level", JStr "medium")])
        \/ (~ (50000 < Claim.total_amount claim)%Q
            /\ (10 < length (Claim.items claim))%nat
            /\ AISuggestion.suggested_action s =
                 JDict [("action", JStr "investigate");
                        ("indicators", JList [JStr "excessive_items"]);
                        ("risk_level", JStr "medium")]))
  /\ ((50000 < Claim.total_amount claim)%Q ->
      exists s : AISuggestion.t,
        s ∈ (_fallback_analysis claim w).1
        /\ AISuggestion.type s = FLAG_FRAUD
        /\ AISuggestion.confidence_score s = 0.75%Q
        /\ AISuggestion.suggested_action s =
             JDict [("action", JStr "investigate");
                    ("indicators", JList [JStr "high_amount"]);
                    ("risk_level", JStr "medium")])
  /\ ((Claim.total_amount claim <= 50000)%Q ->
      (10 < length (Claim.items claim))%nat ->
      exists s : AISuggestion.t,
        s ∈ (_fallback_analysis claim w).1
        /\ AISuggestion.type s = FLAG_FRAUD
        /\ AISuggestion.confidence_score s = 0.75%Q
        /\ AISuggestion.suggested_action s =
             JDict [("action", JStr "investigate");
                    ("indicators", JList [JStr "excessive_items"]);
                    ("risk_level", JStr "medium")])
  /\ ((Claim.total_amount claim <= 50000)%Q ->
      (length (Claim.items claim) <= 10)%nat ->
      forall s : AISuggestion.t,
        s ∈ (_fallback_analysis claim w).1 ->
        AISuggestion.type s <> FLAG_FRAUD).
Proof.
  split; [| split; [| split; [| split]]].
  - destruct (fallback_rules claim w) as (i1 & i2 & i3 & t1 & t2 & t3 & ->).
    intros Hamount Hitems.
    unfold fraud_action, fraud_indicators.
    rewrite !(Qgtb_Qeq _ _ _ Hamount). cbn.
    do 3 eexists. split; [reflexivity |]. cbn. repeat split.
  - intros s Hin Hty.
    destruct (Qgtb (Claim.total_amount claim) 50000
              || len_gt (Claim.items claim) 10) eqn:Hcond.
    + assert (Haction : AISuggestion.suggested_action s = fraud_action claim).
      { destruct (fallback_rules claim w)
          as (i1 & i2 & i3 & t1 & t2 & t3 & Hrules).
        rewrite Hrules, Hcond in Hin.
        destruct (Qgtb (Claim.total_amount claim) 10000); cbn in Hin;
          repeat match goal with
                 | H : _ ∈ _ :: _ |- _ =>
                     apply elem_of_cons in H as [-> | H]
                 | H : _ ∈ [] |- _ => apply elem_of_nil in H; contradiction
                 end;
          cbn in Hty; try discriminate; reflexivity. }
      rewrite Haction. unfold fraud_action, fraud_indicators.
      destruct (Qgtb (Claim.total_amount claim) 50000) eqn:Hbig.
      * left. split; [now apply Qgtb_true | reflexivity].
      * right. destruct (orb_prop _ _ Hcond) as [Hc | Hc]; [discriminate |].
        apply len_gt_true in Hc.
        split; [| split; [exact Hc | reflexivity]].
        intros Hlt. apply Qgtb_true in Hlt. congruence.
    + exfalso. exact (fallback_fraud_absent claim w Hcond s Hin Hty).
  - intros Hbig%Qgtb_true.
    destruct (fallback_fraud_emitted claim w) as (s & Hin & Hty & Hsc & Hact).
    { now rewrite Hbig. }
    exists s. repeat split; try assumption.
    rewrite Hact. unfold fraud_action, fraud_indicators. now rewrite Hbig.
  - intros Hsmall%Qgtb_false Hmany%len_gt_true.
    destruct (fallback_fraud_emitted claim w) as (s & Hin & Hty & Hsc & Hact).
    { rewrite Hmany. apply orb_true_r. }
    exists s. repeat split; try assumption.
    rewrite Hact. unfold fraud_action, fraud_indicators. now rewrite Hsmall.
  - intros Hsmall%Qgtb_false Hfew%len_gt_false.
    apply fallback_fraud_absent. now rewrite Hsmall, Hfew.
Qed.

Lemma C5_fallback_fraud_indicator_witness :
  ((Claim.total_amount (sample_claim 60000 2) == 60000)%Q
   /\ length (Claim.items (sample_claim 60000 2)) = 2%nat
   /\ exists s1 s2 s3 : AISuggestion.t,
        (_fallback_analysis (sample_claim 60000 2) sample_world).1
          = [s1; s2; s3]
        /\ AISuggestion.type s2 = FLAG_FRAUD
        /\ AISuggestion.confidence_score s2 = 0.75%Q
        /\ AISuggestion.suggested_action s2 =
             JDict [("action", JStr "investigate");
                    ("indicators", JList [JStr "high_amount"]);
                    ("risk_level", JStr "medium")])
  /\ ((Claim.total_amount (sample_claim 100 11) <= 50000)%Q
      /\ (10 < length (Claim.items (sample_claim 100 11)))%nat
      /\ exists s : AISuggestion.t,
           s ∈ (_fallback_analysis (sample_claim 100 11) sample_world).1
           /\ AISuggestion.type s = FLAG_FRAUD
           /\ AISuggestion.confidence_score s = 0.75%Q
           /\ AISuggestion.suggested_action s =
                JDict [("action", JStr "investigate");
                       ("indicators", JList [JStr "excessive_items"]);
                       ("risk_level", JStr "medium")])
  /\ ((Claim.total_amount (sample_claim 100 10) <= 50000)%Q
      /\ (length (Claim.items (sample_claim 100 10)) <= 10)%nat
      /\ forall s : AISuggestion.t,
           s ∈ (_fallback_analysis (sample_claim 100 10) sample_world).1 ->
           AISuggestion.type s <> FLAG_FRAUD).
Proof.
  split; [| split].
  - split; [reflexivity |]. split; [reflexivity |].
    apply (proj1 (C5_fallback_fraud_indicator (sample_claim 60000 2)
                    sample_world)); reflexivity.
  - assert (H1 : (Claim.total_amount (sample_claim 100 11) <= 50000)%Q)
      by discriminate.
    assert (H2 : (10 < length (Claim.items (sample_claim 100 11)))%nat)
      by (cbn; lia).
    split; [exact H1 |]. split; [exact H2 |].
    exact (proj1 (proj2 (proj2 (proj2
             (C5_fallback_fraud_indicator (sample_claim 100 11)
                sample_world)))) H1 H2).
  - assert (H1 : (Claim.total_amount (sample_claim 100 10) <= 50000)%Q)
      by discriminate.
    assert (H2 : (length (Claim.items (sample_claim 100 10)) <= 10)%nat)
      by (cbn; lia).
    split; [exact H1 |]. split; [exact H2 |].
    exact (proj2 (proj2 (proj2 (proj2
             (C5_fallback_fraud_indicator (sample_claim 100 10)
                sample_world)))) H1 H2).
Defined.

(** C6: for every claim the fallback generator emits between one and three
    candidates, never none, and exactly one of them is an [approve_claim];
    it has confidence 0.80 and the action [{action: "approve",
    total_amount}]. *)
Theorem C6_fallback_always_approves (claim : Claim.t) (w : World) :
  (1 <= length (_fallback_analysis claim w).1 <= 3)%nat
  /\ (_fallback_analysis claim w).1 <> []
  /\ exists approve : AISuggestion.t,
       filter (fun s => AISuggestion.type s = APPROVE_CLAIM)
         (_fallback_analysis claim w).1 = [approve]
       /\ AISuggestion.confidence_score approve = 0.80%Q
       /\ AISuggestion.suggested_action approve =
            JDict [("action", JStr "approve");
                   ("total_amount", JFloat (Claim.total_amount claim))].
Proof.
  destruct (fallback_rules claim w) as (i1 & i2 & i3 & t1 & t2 & t3 & ->).
  destruct (Qgtb (Claim.total_amount claim) 10000);
    destruct (Qgtb (Claim.total_amount claim) 50000
              || len_gt (Claim.items claim) 10);
    cbn; (split; [lia |]); (split; [discriminate |]);
    eexists; (split; [reflexivity |]); split; reflexivity.
Qed.

(** ** The table *)

Section StoreFacts.

Implicit Types (db : Session) (s : AISuggestion.t) (k : UUID).

Lemma elem_of_rows db s : s ∈ rows db <-> exists k, db !! k = Some s.
Proof.
  unfold rows. rewrite list_elem_of_fmap. split.
  - intros ([k s'] & -> & Hin). exists k. now apply elem_of_map_to_list.
  - intros (k & Hk). exists (k, s). split; [reflexivity |].
    now apply elem_of_map_to_list.
Qed.

Lemma rows_wf db s :
  Session_wf db -> s ∈ rows db -> db !! AISuggestion.id s = Some s.
Proof.
  intros Hwf (k & Hk)%elem_of_rows.
  now rewrite (Hwf k s Hk).
Qed.

Lemma elem_of_get_by_claim db c s :
  s ∈ get_by_claim db c <-> s ∈ rows db /\ AISuggestion.claim_id s = c.
Proof.
  unfold get_by_claim. rewrite merge_sort_Permutation, list_elem_of_filter.
  tauto.
Qed.

(** The invariant of the table is kept by every repository method. *)
Lemma create_wf db s : Session_wf db -> Session_wf (create db s).1.
Proof.
  intros Hwf. unfold create.
  destruct (db !! AISuggestion.id s); cbn; [exact Hwf |].
  now apply map_Forall_insert_2.
Qed.

Lemma setattr_id s a : AISuggestion.id (setattr s a) = AISuggestion.id s.
Proof. destruct s, a; reflexivity. Qed.

Lemma foldl_setattr_id s l :
  AISuggestion.id (foldl setattr s l) = AISuggestion.id s.
Proof.
  revert s. induction l as [| a l IH]; intros s; cbn; [reflexivity |].
  now rewrite IH, setattr_id.
Qed.

Lemma update_wf db k l : Session_wf db -> Session_wf (update db k l).1.
Proof.
  intros Hwf. unfold update, get.
  destruct (db !! k) as [s |] eqn:Hk; cbn; [| exact Hwf].
  apply map_Forall_insert_2; [| exact Hwf].
  rewrite foldl_setattr_id. exact (Hwf k s Hk).
Qed.

Lemma delete_fst db k : (delete db k).1 = base.delete k db.
Proof.
  unfold delete, get. destruct (db !! k) eqn:Hk; cbn; [reflexivity |].
  symmetry. now apply delete_id.
Qed.

Lemma delete_wf db k : Session_wf db -> Session_wf (delete db k).1.
Proof. intros Hwf. rewrite delete_fst. now apply map_Forall_delete. Qed.

End StoreFacts.

(** ** Creation *)

(** C7, on the code: [create] checks nothing.  A suggestion whose
    confidence score is 1.5, outside the range 0.0 to 1.0 that schemas.py
    notes for the field, is not refused: it is stored and returned as it
    was given, and can be fetched afterwards. *)
Lemma C7_out_of_range_score_is_stored :
  (1 < AISuggestion.confidence_score overconfident_suggestion)%Q
  /\ create_suggestion sample_db overconfident_suggestion =
       (<[4%N := overconfident_suggestion]> sample_db,
        Ok overconfident_suggestion)
  /\ get (create_suggestion sample_db overconfident_suggestion).1 4
       = Some overconfident_suggestion.
Proof. split; [reflexivity |]. split; reflexivity. Qed.

(** ** High-confidence suggestions *)

(** C8: for every threshold and every table, the high-confidence query
    returns exactly the stored suggestions whose confidence score is at
    least the threshold; a stored suggestion with score 0.80 is returned
    for the threshold 0.80 and not for 0.81. *)
Theorem C8_high_confidence_inclusive (db : Session) (threshold : Q)
    (s : AISuggestion.t) :
  (s ∈ get_high_confidence_suggestions db threshold
   <-> s ∈ rows db /\ (threshold <= AISuggestion.confidence_score s)%Q)
  /\ (s ∈ rows db ->
      (AISuggestion.confidence_score s == 0.80)%Q ->
      s ∈ get_high_confidence_suggestions db 0.80
      /\ s ∉ get_high_confidence_suggestions db 0.81).
Proof.
  assert (Hiff : forall t,
    s ∈ get_high_confidence_suggestions db t
    <-> s ∈ rows db /\ (t <= AISuggestion.confidence_score s)%Q).
  { intros t. unfold get_high_confidence_suggestions.
    rewrite list_elem_of_filter, Qle_bool_iff. tauto. }
  split; [apply Hiff |].
  intros Hin Hscore. rewrite !Hiff, Hscore. split.
  - split; [exact Hin | apply Qle_refl].
  - intros [_ Hle]. revert Hle. apply Qlt_not_le. reflexivity.
Qed.

Lemma C8_high_confidence_inclusive_witness :
  accepted_suggestion ∈ rows sample_db
  /\ (AISuggestion.confidence_score accepted_suggestion == 0.80)%Q
  /\ accepted_suggestion ∈ get_high_confidence_suggestions sample_db 0.80
  /\ accepted_suggestion ∉ get_high_confidence_suggestions sample_db 0.81.
Proof.
  assert (Hin : accepted_suggestion ∈ rows sample_db).
  { apply elem_of_rows. exists 1%N. reflexivity. }
  split; [exact Hin |]. split; [reflexivity |].
  apply (proj2 (C8_high_confidence_inclusive sample_db 0.80
                  accepted_suggestion)); [exact Hin | reflexivity].
Defined.

(** ** Metrics *)

Section MetricsFacts.

(** Every row has exactly one of the four statuses. *)
Lemma status_partition (l : list AISuggestion.t) :
  (length (filter (fun s => AISuggestion.status s = ACCEPTED) l)
   + length (filter (fun s => AISuggestion.status s = REJECTED) l)
   + length (filter (fun s => AISuggestion.status s = MODIFIED) l)
   + length (filter (fun s => AISuggestion.status s = PENDING) l)
   = length l)%nat.
Proof.
  induction l as [| s l IH]; [reflexivity |].
  rewrite !filter_cons.
  destruct (AISuggestion.status s); repeat case_decide;
    try congruence; cbn; lia.
Qed.

Lemma reviewed_counts_le_total (db : Session) :
  (count_status db ACCEPTED + count_status db REJECTED
   + count_status db MODIFIED <= length (rows db))%nat.
Proof.
  unfold count_status. pose proof (status_partition (rows db)). lia.
Qed.

(** The exact quotients of the three counts by the total add up to at
    most 1. *)
Lemma ratios_sum_le_1 (a r m total : nat) :
  (a + r + m <= total)%nat ->
  (0 < total)%nat ->
  (inject_Z (Z.of_nat a) / inject_Z (Z.of_nat total)
   + inject_Z (Z.of_nat r) / inject_Z (Z.of_nat total)
   + inject_Z (Z.of_nat m) / inject_Z (Z.of_nat total) <= 1)%Q.
Proof.
  intros Hle Hpos.
  set (c := inject_Z (Z.of_nat total)).
  assert (Hc : (0 < c)%Q).
  { unfold c. change 0%Q with (inject_Z 0). rewrite <- Zlt_Qlt. lia. }
  unfold Qdiv. rewrite <- !Qmult_plus_distr_l.
  apply Qle_shift_div_r; [exact Hc |].
  rewrite Qmult_1_l. unfold c.
  rewrite <- !inject_Z_plus, <- Zle_Qle. lia.
Qed.

End MetricsFacts.

(** C3, on the code: of 28 suggestions nine are accepted, eighteen
    rejected and one modified.  Each rate is the quotient of its count by
    28, and the three rates add up to 1.0000000000000002, which is more
    than 1. *)
Lemma C3_rates_sum_exceeds_one :
  total_suggestions (get_metrics rounding_db) = 28%nat
  /\ count_status rounding_db ACCEPTED = 9%nat
  /\ count_status rounding_db REJECTED = 18%nat
  /\ count_status rounding_db MODIFIED = 1%nat
  /\ acceptance_rate (get_metrics rounding_db) = (9 / 28)%float
  /\ rejection_rate (get_metrics rounding_db) = (18 / 28)%float
  /\ modification_rate (get_metrics rounding_db) = (1 / 28)%float
  /\ (acceptance_rate (get_metrics rounding_db)
      + rejection_rate (get_metrics rounding_db)
      + modification_rate (get_metrics rounding_db))%float
     = 0x1.0000000000001p+0%float
  /\ PrimFloat.leb
       (acceptance_rate (get_metrics rounding_db)
        + rejection_rate (get_metrics rounding_db)
        + modification_rate (get_metrics rounding_db))%float 1
     = false.
Proof. repeat split; vm_compute; reflexivity. Qed.

(** C3, amended: for every table of fewer than 2^53 suggestions, the
    metrics give each rate as the binary64 quotient of the count of the
    status by the total when the total is positive, and as 0 when it is 0,
    so that no division by zero occurs.  Pending suggestions count in the
    total and in no rate: the four counts add up to the total, the three
    reviewed counts to at most the total, and their exact quotients by the
    total to at most 1.  The route stub, when it answers, answers with the
    same metrics. *)
Theorem C3_metrics_rates (db : Session) :
  (Z.of_nat (length (rows db)) < 2 ^ 53)%Z ->
  total_suggestions (get_metrics db) = length (rows db)
  /\ ((total_suggestions (get_metrics db) = 0%nat
       /\ acceptance_rate (get_metrics db) = 0%float
       /\ rejection_rate (get_metrics db) = 0%float
       /\ modification_rate (get_metrics db) = 0%float)
      \/ ((0 < total_suggestions (get_metrics db))%nat
          /\ acceptance_rate (get_metrics db) =
               (float_of_count (count_status db ACCEPTED)
                / float_of_count (total_suggestions (get_metrics db)))%float
          /\ rejection_rate (get_metrics db) =
               (float_of_count (count_status db REJECTED)
                / float_of_count (total_suggestions (get_metrics db)))%float
          /\ modification_rate (get_metrics db) =
               (float_of_count (count_status db MODIFIED)
                / float_of_count
                    (total_suggestions (get_metrics db)))%float))
  /\ (count_status db ACCEPTED + count_status db REJECTED
      + count_status db MODIFIED + count_status db PENDING
      = total_suggestions (get_metrics db))%nat
  /\ (count_status db ACCEPTED + count_status db REJECTED
      + count_status db MODIFIED <= total_suggestions (get_metrics db))%nat
  /\ ((0 < total_suggestions (get_metrics db))%nat ->
      (inject_Z (Z.of_nat (count_status db ACCEPTED))
       / inject_Z (Z.of_nat (total_suggestions (get_metrics db)))
       + inject_Z (Z.of_nat (count_status db REJECTED))
         / inject_Z (Z.of_nat (total_suggestions (get_metrics db)))
       + inject_Z (Z.of_nat (count_status db MODIFIED))
         / inject_Z (Z.of_nat (total_suggestions (get_metrics db)))
       <= 1)%Q)
  /\ (forall (db_func : string + unit) (m : Metrics),
        get_suggestion_metrics_route db_func db = Ok m ->
        m = get_metrics db).
Proof.
  intros _. unfold get_metrics.
  cbn [total_suggestions acceptance_rate rejection_rate modification_rate].
  split; [reflexivity |]. split; [| split; [| split; [| split]]].
  - unfold rate. destruct (length (rows db)) as [| t] eqn:Htotal.
    + left. repeat split.
    + right. cbn [Nat.ltb Nat.leb]. repeat split. lia.
  - unfold count_status. apply status_partition.
  - apply reviewed_counts_le_total.
  - intros Hpos. apply ratios_sum_le_1; [| exact Hpos].
    apply reviewed_counts_le_total.
  - intros db_func m. unfold get_suggestion_metrics_route.
    destruct db_func as [e | []]; [discriminate |].
    now intros [= <-].
Qed.

Lemma C3_metrics_rates_witness :
  (Z.of_nat (length (rows rounding_db)) < 2 ^ 53)%Z
  /\ total_suggestions (get_metrics rounding_db) = 28%nat
  /\ acceptance_rate (get_metrics rounding_db)
     = (float_of_count 9 / float_of_count 28)%float
  /\ (count_status rounding_db ACCEPTED + count_status rounding_db REJECTED
      + count_status rounding_db MODIFIED <= 28)%nat.
Proof.
  assert (Hsmall : (Z.of_nat (length (rows rounding_db)) < 2 ^ 53)%Z)
    by (vm_compute; reflexivity).
  split; [exact Hsmall |].
  destruct (C3_metrics_rates rounding_db Hsmall)
    as (Htotal & _ & _ & Hle & _).
  split; [vm_compute; reflexivity |].
  split; [vm_compute; reflexivity |].
  rewrite Htotal in Hle. exact Hle.
Defined.

(** ** Regeneration *)

Section RegenerationFacts.

Implicit Types (db : Session) (s : AISuggestion.t) (k c : UUID).

(** What the deletion loop leaves of the table. *)
Lemma delete_each_lookup (existing : list AISuggestion.t) db k :
  delete_each db existing !! k =
    if decide (k ∈ AISuggestion.id <$> existing) then None else db !! k.
Proof.
  revert db. induction existing as [| s l IH]; intros db; cbn.
  - case_decide as Hin; [| reflexivity].
    now apply elem_of_nil in Hin.
  - fold (delete_each (delete db (AISuggestion.id s)).1 l).
    rewrite IH, delete_fst, lookup_delete.
    destruct (decide (k ∈ AISuggestion.id <$> l)) as [Hl | Hl].
    + rewrite decide_True; [reflexivity |].
      apply elem_of_cons. now right.
    + destruct (decide (AISuggestion.id s = k)) as [<- | Hne].
      * rewrite decide_True; [reflexivity |].
        apply elem_of_cons. now left.
      * rewrite decide_False; [reflexivity |].
        intros [Heq | Hin]%elem_of_cons; congruence.
Qed.

Lemma delete_each_wf (existing : list AISuggestion.t) db :
  Session_wf db -> Session_wf (delete_each db existing).
Proof.
  revert db. induction existing as [| s l IH]; intros db Hwf; cbn;
    [exact Hwf |].
  apply IH. now apply delete_wf.
Qed.

(** The loop over the claim's suggestions removes exactly the rows of the
    claim. *)
Lemma delete_each_claim db c :
  Session_wf db ->
  delete_each db (get_by_claim db c)
    = filter (fun kv => AISuggestion.claim_id kv.2 <> c) db.
Proof.
  intros Hwf. apply map_eq. intros k. apply option_eq. intros x.
  rewrite delete_each_lookup, map_lookup_filter_Some. cbn.
  case_decide as Hin.
  - apply list_elem_of_fmap in Hin as (s & -> & Hs).
    apply elem_of_get_by_claim in Hs as [Hrow Hc].
    apply (rows_wf _ _ Hwf) in Hrow.
    split; [discriminate |]. intros [Hx Hne]. congruence.
  - split; [| tauto]. intros Hx. split; [exact Hx |].
    intros Hc. apply Hin. apply list_elem_of_fmap. exists x.
    split; [symmetry; exact (Hwf k x Hx) |].
    apply elem_of_get_by_claim. split; [| exact Hc].
    apply elem_of_rows. now exists k.
Qed.

Lemma get_by_claim_filtered db c :
  get_by_claim (filter (fun kv => AISuggestion.claim_id kv.2 <> c) db) c
    = [].
Proof.
  apply elem_of_nil_inv. intros s [Hrow Hc]%elem_of_get_by_claim.
  apply elem_of_rows in Hrow as (k & Hk).
  apply map_lookup_filter_Some in Hk as [_ Hne]. now apply Hne.
Qed.

(** The table after [regenerate_suggestions] does not depend on the
    generator: its answer is returned, never stored. *)
Lemma regenerate_suggestions_table
    (generate : UUID -> result (list AISuggestion.t)) db c :
  Session_wf db ->
  regenerate_suggestions generate db c
    = (filter (fun kv => AISuggestion.claim_id kv.2 <> c) db, generate c).
Proof.
  intros Hwf. unfold regenerate_suggestions.
  now rewrite delete_each_claim.
Qed.

End RegenerationFacts.

(** C9: regeneration is not atomic.  The suggestions of the claim are
    deleted before the generator is called; when that call raises, the
    failure is what the caller gets and the table keeps the deletions: the
    claim has no suggestion left, every identifier it had is unknown, and
    the rows of other claims are as before. *)
Theorem C9_regeneration_not_atomic
    (generate : UUID -> result (list AISuggestion.t))
    (db : Session) (claim_id : UUID) (e : Error) :
  Session_wf db ->
  generate claim_id = Raise e ->
  (regenerate_suggestions generate db claim_id).2 = Raise e
  /\ get_by_claim (regenerate_suggestions generate db claim_id).1 claim_id
       = []
  /\ (forall s : AISuggestion.t,
        s ∈ get_by_claim db claim_id ->
        get (regenerate_suggestions generate db claim_id).1
          (AISuggestion.id s) = None)
  /\ (forall s : AISuggestion.t,
        s ∈ rows db ->
        AISuggestion.claim_id s <> claim_id ->
        get (regenerate_suggestions generate db claim_id).1
          (AISuggestion.id s) = Some s)
  /\ (get_by_claim db claim_id <> [] ->
      (regenerate_suggestions generate db claim_id).1 <> db).
Proof.
  intros Hwf Hraise.
  rewrite regenerate_suggestions_table by exact Hwf. cbn.
  assert (Hgone : forall s : AISuggestion.t,
    s ∈ get_by_claim db claim_id ->
    get (filter (fun kv => AISuggestion.claim_id kv.2 <> claim_id) db)
      (AISuggestion.id s) = None).
  { intros s [Hrow Hc]%elem_of_get_by_claim. unfold get.
    apply map_lookup_filter_None. right. intros x Hx.
    apply (rows_wf _ _ Hwf) in Hrow. cbn. intros Hne. congruence. }
  split; [exact Hraise |]. split; [apply get_by_claim_filtered |].
  split; [exact Hgone |]. split.
  - intros s Hrow Hne. unfold get. apply map_lookup_filter_Some.
    split; [now apply rows_wf | exact Hne].
  - intros Hsome Heq.
    destruct (get_by_claim db claim_id) as [| s l] eqn:Hl; [congruence |].
    assert (Hs : s ∈ s :: l) by (apply elem_of_cons; now left).
    pose proof (Hgone s Hs) as Hnone. rewrite Heq in Hnone.
    rewrite <- Hl in Hs. apply elem_of_get_by_claim in Hs as [Hrow _].
    apply (rows_wf _ _ Hwf) in Hrow. unfold get in Hnone. congruence.
Qed.

Lemma sample_db_wf : Session_wf sample_db.
Proof.
  unfold sample_db, Session_wf.
  repeat (apply map_Forall_insert_2; [reflexivity |]).
  apply map_Forall_empty.
Qed.

Lemma C9_regeneration_not_atomic_witness :
  Session_wf sample_db
  /\ AIService_generate_suggestions 7
       = Raise (AttributeError "generate_suggestions")
  /\ (regenerate_suggestions AIService_generate_suggestions sample_db 7).2
       = Raise (AttributeError "generate_suggestions")
  /\ get_by_claim
       (regenerate_suggestions AIService_generate_suggestions sample_db 7).1
       7 = []
  /\ ((regenerate_suggestions AIService_generate_suggestions sample_db 7).1
        <> sample_db).
Proof.
  split; [exact sample_db_wf |]. split; [reflexivity |].
  destruct (C9_regeneration_not_atomic AIService_generate_suggestions
              sample_db 7 (AttributeError "generate_suggestions")
              sample_db_wf eq_refl)
    as (Hres & Hempty & _ & _ & Hchanged).
  split; [exact Hres |]. split; [exact Hempty |].
  apply Hchanged. vm_compute. discriminate.
Defined.

(** C2, on the code: claim 7 has an accepted and a pending suggestion.
    Regeneration deletes both, and their identifiers are unknown
    afterwards; but the batch the generator returns (two pending
    suggestions of claim 7) is handed to the caller without being stored,
    so the claim lists no suggestion at all.  With the generator of the
    sources the call raises, [AIService] having no [generate_suggestions]. *)
Theorem C2_regeneration_does_not_persist :
  map AISuggestion.id (get_by_claim sample_db 7) = [2%N; 1%N]
  /\ length fresh_batch = 2%nat
  /\ Forall (fun s => AISuggestion.status s = PENDING
                      /\ AISuggestion.claim_id s = 7%N) fresh_batch
  /\ (regenerate_suggestions (fun _ => Ok fresh_batch) sample_db 7).2
       = Ok fresh_batch
  /\ get_by_claim
       (regenerate_suggestions (fun _ => Ok fresh_batch) sample_db 7).1 7
       = []
  /\ get (regenerate_suggestions (fun _ => Ok fresh_batch) sample_db 7).1 1
       = None
  /\ get (regenerate_suggestions (fun _ => Ok fresh_batch) sample_db 7).1 2
       = None
  /\ regenerate_suggestions AIService_generate_suggestions sample_db 7
       = (base.delete 2%N (base.delete 1%N sample_db),
          Raise (AttributeError "generate_suggestions")).
Proof.
  split; [vm_compute; reflexivity |].
  split; [vm_compute; reflexivity |].
  split; [repeat constructor |].
  split; [reflexivity |].
  split; [vm_compute; reflexivity |].
  split; [vm_compute; reflexivity |].
  split; [vm_compute; reflexivity |].
  vm_compute; reflexivity.
Qed.

(** ** Review *)

(** C10: the status update of a stored suggestion always succeeds and
    writes [status], [reviewer_id], [reviewer_notes] (the notes given,
    [None] when omitted) and [reviewed_at]; it replaces [suggested_action]
    by the modified action exactly when that one is truthy, so that an
    absent, empty-string or empty-document modified action leaves the
    suggested action as it was, also under the status MODIFIED; the eight
    other columns are not changed. *)
Theorem C10_update_status_frame (db : Session) (now : datetime) (i : UUID)
    (status : SuggestionStatus) (reviewer : UUID) (notes : option string)
    (modified_action : option Json) (s : AISuggestion.t) :
  get db i = Some s ->
  exists s' : AISuggestion.t,
    update_status db now i status reviewer notes modified_action
      = (<[i := s']> db, Some s')
    /\ (truthy_opt modified_action = true ->
        Some (AISuggestion.suggested_action s') = modified_action)
    /\ (truthy_opt modified_action = false ->
        AISuggestion.suggested_action s' = AISuggestion.suggested_action s)
    /\ (modified_action = None \/ modified_action = Some (JStr "")
        \/ modified_action = Some (JDict []) ->
        exists m : AISuggestion.t,
          (update_status db now i MODIFIED reviewer notes modified_action).2
            = Some m
          /\ AISuggestion.status m = MODIFIED
          /\ AISuggestion.suggested_action m
               = AISuggestion.suggested_action s)
    /\ AISuggestion.status s' = status
    /\ AISuggestion.reviewer_id s' = Some reviewer
    /\ AISuggestion.reviewer_notes s' = notes
    /\ AISuggestion.reviewed_at s' = Some now
    /\ AISuggestion.id s' = AISuggestion.id s
    /\ AISuggestion.claim_id s' = AISuggestion.claim_id s
    /\ AISuggestion.type s' = AISuggestion.type s
    /\ AISuggestion.description s' = AISuggestion.description s
    /\ AISuggestion.confidence_score s' = AISuggestion.confidence_score s
    /\ AISuggestion.ai_explanation s' = AISuggestion.ai_explanation s
    /\ AISuggestion.created_at s' = AISuggestion.created_at s
    /\ AISuggestion.model_version s' = AISuggestion.model_version s.
Proof.
  intros Hget. unfold update_status, update. rewrite Hget.
  destruct s as [i0 c ty d cs ex act st cr ra ri rn mv].
  destruct modified_action as [action |];
    [destruct (truthy action) eqn:Htruthy |];
    cbn; rewrite ?Htruthy; eexists; (split; [reflexivity |]); cbn;
    rewrite ?Htruthy;
    repeat split; try congruence;
    intros [Hma | [Hma | Hma]]; try discriminate;
    try (injection Hma as ->; discriminate);
    eexists; repeat split.
Qed.

Lemma C10_update_status_frame_witness :
  get sample_db 2 = Some (sample_suggestion 2 7 FLAG_FRAUD 0.95 PENDING 20)
  /\ exists s' : AISuggestion.t,
       update_status sample_db 99 2 MODIFIED 55 None (Some (JStr ""))
         = (<[2%N := s']> sample_db, Some s')
       /\ AISuggestion.status s' = MODIFIED
       /\ AISuggestion.reviewer_notes s' = None
       /\ AISuggestion.reviewed_at s' = Some 99%Z
       /\ AISuggestion.suggested_action s'
            = JDict [("action", JStr "Schedule inspection")].
Proof.
  split; [reflexivity |].
  destruct (C10_update_status_frame sample_db 99 2 MODIFIED 55 None
              (Some (JStr ""))
              (sample_suggestion 2 7 FLAG_FRAUD 0.95 PENDING 20) eq_refl)
    as (s' & Hupd & _ & Hkeep & _ & Hst & _ & Hnotes & Hat & _).
  exists s'. split; [exact Hupd |]. split; [exact Hst |].
  split; [exact Hnotes |]. split; [exact Hat |].
  rewrite (Hkeep eq_refl). reflexivity.
Defined.

(** C1, on the code: suggestion 1 is ACCEPTED, and the status update
    ([PATCH /{suggestion_id}/status], [update_status]) goes through all the
    same: it answers with the updated suggestion and has overwritten
    [status], [reviewer_id], [reviewer_notes] and [reviewed_at]. *)
Theorem C1_update_status_overwrites_reviewed :
  get sample_db 1 = Some accepted_suggestion
  /\ AISuggestion.status accepted_suggestion = ACCEPTED
  /\ exists s' : AISuggestion.t,
       update_suggestion_status_route sample_db 99 1 REJECTED 56
         (Some "Second review") None
         = (<[1%N := s']> sample_db, Ok s')
       /\ AISuggestion.status s' = REJECTED
       /\ AISuggestion.reviewer_id s' = Some 56%N
       /\ AISuggestion.reviewer_notes s' = Some "Second review"
       /\ AISuggestion.reviewed_at s' = Some 99%Z
       /\ s' <> accepted_suggestion.
Proof.
  split; [reflexivity |]. split; [reflexivity |].
  eexists. split; [reflexivity |]. cbn.
  repeat split. discriminate.
Qed.

(** The review route refuses a suggestion that is not PENDING with the
    answer 400 "Suggestion has already been reviewed"; the table, and so
    every field of the suggestion, is unchanged and the clock is not
    read. *)
Theorem review_suggestion_rejects_reviewed (db : Session) (i : UUID)
    (review : SuggestionReview.t) (w : World) (s : AISuggestion.t) :
  get db i = Some s ->
  AISuggestion.status s <> PENDING ->
  review_suggestion db i review w
    = ((db, Raise (HTTPException 400 "Suggestion has already been reviewed")),
       w)
  /\ get (review_suggestion db i review w).1.1 i = Some s.
Proof.
  intros Hget Hst. unfold review_suggestion. unfold get in Hget.
  rewrite Hget. rewrite decide_True by exact Hst. cbn.
  split; [reflexivity | exact Hget].
Qed.

Lemma review_suggestion_rejects_reviewed_witness :
  get sample_db 1 = Some accepted_suggestion
  /\ AISuggestion.status accepted_suggestion <> PENDING
  /\ review_suggestion sample_db 1
       (SuggestionReview.mk 1 REJECTED 56 (Some "Second review") None)
       sample_world
     = ((sample_db,
         Raise (HTTPException 400 "Suggestion has already been reviewed")),
        sample_world).
Proof.
  split; [reflexivity |]. split; [discriminate |].
  apply (review_suggestion_rejects_reviewed sample_db 1
           (SuggestionReview.mk 1 REJECTED 56 (Some "Second review") None)
           sample_world accepted_suggestion eq_refl).
  discriminate.
Defined.

(** On a PENDING suggestion the review route does what the status update
    does, with the clock reading as the review time. *)
Theorem review_suggestion_pending (db : Session) (i : UUID)
    (review : SuggestionReview.t) (w : World) (s : AISuggestion.t) :
  get db i = Some s ->
  AISuggestion.status s = PENDING ->
  (review_suggestion db i review w).1
    = update_suggestion_status_route db (clock_source w (clock_read w)) i
        (SuggestionReview.status review)
        (SuggestionReview.reviewer_id review)
        (SuggestionReview.reviewer_notes review)
        (SuggestionReview.modified_action review).
Proof.
  intros Hget Hst.
  unfold review_suggestion, update_suggestion_status_route,
    update_suggestion_status, update_status, update.
  rewrite Hget. unfold get in Hget. rewrite Hget.
  rewrite decide_False by (intros Hne; now apply Hne).
  destruct s as [i0 c ty d cs ex act st cr ra ri rn mv].
  destruct (SuggestionReview.modified_action review) as [action |];
    [destruct (truthy action) |]; reflexivity.
Qed.

Lemma review_suggestion_pending_witness :
  get sample_db 2 = Some (sample_suggestion 2 7 FLAG_FRAUD 0.95 PENDING 20)
  /\ (review_suggestion sample_db 2
        (SuggestionReview.mk 2 ACCEPTED 55 (Some "Looks good") None)
        sample_world).1
     = update_suggestion_status_route sample_db 1000 2 ACCEPTED 55
         (Some "Looks good") None.
Proof.
  split; [reflexivity |].
  apply (review_suggestion_pending sample_db 2
           (SuggestionReview.mk 2 ACCEPTED 55 (Some "Looks good") None)
           sample_world (sample_suggestion 2 7 FLAG_FRAUD 0.95 PENDING 20));
    reflexivity.
Defined.

(** * Further properties of the code *)

(** ** BaseRepository *)

Section RowsFacts.

Implicit Types (db : Session) (s : AISuggestion.t) (k : UUID).

Lemma rows_insert_fresh db k s :
  db !! k = None -> rows (<[k := s]> db) ≡ₚ s :: rows db.
Proof.
  intros Hk. unfold rows. now rewrite map_to_list_insert by exact Hk.
Qed.

Lemma rows_delete_stored db k s :
  db !! k = Some s -> s :: rows (base.delete k db) ≡ₚ rows db.
Proof.
  intros Hk. unfold rows. now rewrite <- (map_to_list_delete db k s Hk).
Qed.

Lemma rows_insert_stored db k s s' :
  db !! k = Some s -> rows (<[k := s']> db) ≡ₚ s' :: rows (base.delete k db).
Proof.
  intros Hk. rewrite <- insert_delete_eq.
  apply rows_insert_fresh, lookup_delete_eq.
Qed.

End RowsFacts.

(** [delete] answers [True] exactly when the identifier is stored; the
    identifier is unknown afterwards and every other row is as before; an
    unknown identifier leaves the table as it is, so a second [delete] of
    the same identifier answers [False]. *)
Theorem delete_spec (db : Session) (id : UUID) :
  ((delete db id).2 = true <-> exists s, get db id = Some s)
  /\ get (delete db id).1 id = None
  /\ (forall k : UUID, k <> id -> get (delete db id).1 k = get db k)
  /\ (get db id = None -> (delete db id).1 = db)
  /\ delete (delete db id).1 id = ((delete db id).1, false)
  /\ (forall s : AISuggestion.t,
        get db id = Some s ->
        length (rows db) = S (length (rows (delete db id).1)))
  /\ (delete db id).2 = exists_ db id.
Proof.
  rewrite delete_fst. unfold delete, get, exists_.
  split; [| split; [| split; [| split; [| split; [| split]]]]].
  - destruct (db !! id) as [s |]; cbn; split.
    + intros _. now exists s.
    + reflexivity.
    + discriminate.
    + intros [s Hs]. discriminate.
  - apply lookup_delete_eq.
  - intros k Hk. apply lookup_delete_ne. congruence.
  - intros Hnone. now apply delete_id.
  - now rewrite lookup_delete_eq.
  - intros s Hs. now rewrite <- (rows_delete_stored db id s Hs).
  - now destruct (db !! id).
Qed.

(** Creating a suggestion under a fresh identifier adds exactly one row,
    and deleting that identifier again restores the table. *)
Theorem create_delete_round_trip (db : Session) (s : AISuggestion.t) :
  db !! AISuggestion.id s = None ->
  delete (create db s).1 (AISuggestion.id s) = (db, true)
  /\ exists_ (create db s).1 (AISuggestion.id s) = true
  /\ rows (create db s).1 ≡ₚ s :: rows db
  /\ total_suggestions (get_metrics (create db s).1)
       = S (total_suggestions (get_metrics db)).
Proof.
  intros Hfresh. unfold create. rewrite Hfresh. cbn.
  unfold delete, get, exists_. rewrite lookup_insert_eq.
  split; [| split; [reflexivity | split]].
  - rewrite delete_insert_eq. now rewrite delete_id by exact Hfresh.
  - now apply rows_insert_fresh.
  - now rewrite rows_insert_fresh by exact Hfresh.
Qed.

Lemma create_delete_round_trip_witness :
  sample_db !! AISuggestion.id overconfident_suggestion = None
  /\ delete (create sample_db overconfident_suggestion).1
       (AISuggestion.id overconfident_suggestion) = (sample_db, true)
  /\ total_suggestions
       (get_metrics (create sample_db overconfident_suggestion).1) = 4%nat.
Proof.
  split; [reflexivity |].
  destruct (create_delete_round_trip sample_db overconfident_suggestion
              eq_refl) as (Hdel & _ & _ & Htotal).
  split; [exact Hdel |]. rewrite Htotal. reflexivity.
Defined.

Section UpdateFieldsFacts.

Implicit Types (db : Session) (s : AISuggestion.t) (k : UUID).

Lemma foldl_setattr_field_columns s (l : list Assignment) :
  foldl setattr_field s (Column <$> l) = foldl setattr s l.
Proof.
  revert s. induction l as [| a l IH]; intros s; cbn; [reflexivity |].
  apply IH.
Qed.

Lemma assigns_id_columns (l : list Assignment) :
  assigns_id (Column <$> l) = false.
Proof. induction l as [| a l IH]; [reflexivity | exact IH]. Qed.

(** Without the key [id] in the dictionary the [id] of the row is kept. *)
Lemma foldl_setattr_field_id s (obj_in : list Field) :
  assigns_id obj_in = false ->
  AISuggestion.id (foldl setattr_field s obj_in) = AISuggestion.id s.
Proof.
  revert s. induction obj_in as [| f l IH]; intros s Hno; [reflexivity |].
  destruct f as [a | v]; [| discriminate]. cbn in Hno |- *.
  rewrite (IH _ Hno). apply setattr_id.
Qed.

End UpdateFieldsFacts.

(** [update] of an unknown identifier answers [None] and changes nothing.
    For a stored identifier, a dictionary without the key [id] updates the
    row where it is; a dictionary that sets [id] to an identifier not in
    use moves the row: the old identifier is unknown afterwards, the row is
    stored under the new one and carries it, no other row changes and the
    table has as many rows as before.  The rows stay stored under their own
    identifiers throughout. *)
Theorem update_fields_spec (db : Session) (id : UUID) (obj_in : list Field) :
  (get db id = None -> update_fields db id obj_in = (db, Ok None))
  /\ (forall l : list Assignment,
        update_fields db id (Column <$> l)
          = ((update db id l).1, Ok (update db id l).2))
  /\ (forall s : AISuggestion.t,
        get db id = Some s -> update_fields db id [] = (db, Ok (Some s)))
  /\ (forall s : AISuggestion.t,
        get db id = Some s ->
        assigns_id obj_in = true ->
        AISuggestion.id (foldl setattr_field s obj_in) <> id ->
        get db (AISuggestion.id (foldl setattr_field s obj_in)) = None ->
        exists s' : AISuggestion.t,
          s' = foldl setattr_field s obj_in
          /\ update_fields db id obj_in
               = (<[AISuggestion.id s' := s']> (base.delete id db),
                  Ok (Some s'))
          /\ get (update_fields db id obj_in).1 id = None
          /\ get (update_fields db id obj_in).1 (AISuggestion.id s')
               = Some s'
          /\ (forall k : UUID,
                k <> id -> k <> AISuggestion.id s' ->
                get (update_fields db id obj_in).1 k = get db k)
          /\ length (rows (update_fields db id obj_in).1)
               = length (rows db))
  /\ (Session_wf db -> Session_wf (update_fields db id obj_in).1).
Proof.
  unfold update_fields. split; [| split; [| split; [| split]]].
  - intros ->. reflexivity.
  - intros l. unfold update. rewrite assigns_id_columns.
    destruct (get db id) as [s |]; [| reflexivity].
    rewrite decide_True by reflexivity.
    now rewrite foldl_setattr_field_columns.
  - intros s Hs. rewrite Hs. cbn. rewrite decide_True by reflexivity.
    now rewrite insert_id by exact Hs.
  - intros s Hs Hassigns Hne Hfree. rewrite Hs, Hassigns.
    exists (foldl setattr_field s obj_in). split; [reflexivity |].
    rewrite decide_False by exact Hne. unfold get in Hfree. rewrite Hfree.
    cbn. unfold get. split; [reflexivity |]. split; [| split; [| split]].
    + rewrite lookup_insert_ne by congruence. apply lookup_delete_eq.
    + apply lookup_insert_eq.
    + intros k Hk Hk'. rewrite lookup_insert_ne by congruence.
      apply lookup_delete_ne. congruence.
    + rewrite rows_insert_fresh by (rewrite lookup_delete_ne; congruence).
      now rewrite <- (rows_delete_stored db id s Hs).
  - intros Hwf. destruct (get db id) as [s |] eqn:Hs; [| exact Hwf].
    pose proof (Hwf id s Hs) as Hid.
    destruct (assigns_id obj_in) eqn:Hassigns.
    + case_decide as Hkey.
      * cbn. apply map_Forall_insert_2; [exact Hkey | exact Hwf].
      * destruct (db !! AISuggestion.id (foldl setattr_field s obj_in));
          cbn; [exact Hwf |].
        apply map_Forall_insert_2; [reflexivity |].
        now apply map_Forall_delete.
    + rewrite decide_True by reflexivity. cbn.
      apply map_Forall_insert_2; [| exact Hwf].
      now rewrite foldl_setattr_field_id.
Qed.

Lemma update_fields_spec_witness :
  get sample_db 1 = Some accepted_suggestion
  /\ get sample_db 9 = None
  /\ get (update_fields sample_db 1 [Set_id 9]).1 1 = None
  /\ AISuggestion.id
       <$> get (update_fields sample_db 1 [Set_id 9]).1 9 = Some 9%N
  /\ length (rows (update_fields sample_db 1 [Set_id 9]).1) = 3%nat.
Proof.
  split; [reflexivity |]. split; [reflexivity |].
  destruct (update_fields_spec sample_db 1 [Set_id 9])
    as (_ & _ & _ & Hmove & _).
  destruct (Hmove accepted_suggestion eq_refl eq_refl) as
    (s' & -> & _ & Hold & Hnew & _ & Hlen); [discriminate | reflexivity |].
  split; [exact Hold |]. split; [| exact Hlen].
  cbn in Hnew. unfold get in Hnew |- *. now rewrite Hnew.
Defined.

(** ** SuggestionRepository *)

#[global] Instance created_desc_total : Total created_desc.
Proof. intros x y. unfold created_desc. lia. Qed.

#[global] Instance created_desc_trans : Transitive created_desc.
Proof. intros x y z. unfold created_desc. lia. Qed.

Section ListingFacts.

Implicit Types (db : Session) (s : AISuggestion.t) (k c : UUID).

(** In a table that keeps its invariant, the identifiers of the rows are
    the keys, so no identifier occurs twice. *)
Lemma rows_ids_NoDup db :
  Session_wf db -> NoDup (AISuggestion.id <$> rows db).
Proof.
  intros Hwf. unfold rows. rewrite <- list_fmap_compose.
  rewrite (list_fmap_ext _ fst).
  - apply NoDup_fst_map_to_list.
  - intros n [k s] Hn. cbn. apply (Hwf k s).
    apply elem_of_map_to_list. apply list_elem_of_lookup. now exists n.
Qed.

Lemma filtered_ids_NoDup db (P : AISuggestion.t -> Prop)
    `{!forall s, Decision (P s)} :
  Session_wf db -> NoDup (AISuggestion.id <$> filter P (rows db)).
Proof.
  intros Hwf. eapply sublist_NoDup; [apply rows_ids_NoDup, Hwf |].
  apply fmap_sublist, sublist_filter.
Qed.

End ListingFacts.

(** The suggestions of a claim are listed most recent first: each one was
    created no earlier than every one after it.  The list holds the rows
    of the claim and nothing else, each stored suggestion once. *)
Theorem get_by_claim_most_recent_first (db : Session) (claim_id : UUID) :
  Session_wf db ->
  StronglySorted created_desc (get_by_claim db claim_id)
  /\ get_by_claim db claim_id
       ≡ₚ filter (fun s => AISuggestion.claim_id s = claim_id) (rows db)
  /\ NoDup (AISuggestion.id <$> get_by_claim db claim_id)
  /\ (forall s : AISuggestion.t,
        s ∈ get_by_claim db claim_id
        <-> get db (AISuggestion.id s) = Some s
            /\ AISuggestion.claim_id s = claim_id).
Proof.
  intros Hwf. unfold get_by_claim.
  split; [apply StronglySorted_merge_sort; apply _ |].
  split; [apply merge_sort_Permutation |]. split.
  - rewrite merge_sort_Permutation. now apply filtered_ids_NoDup.
  - intros s. rewrite merge_sort_Permutation, list_elem_of_filter.
    unfold get. split.
    + intros [Hc Hrow]. split; [now apply rows_wf | exact Hc].
    + intros [Hs Hc]. split; [exact Hc |]. apply elem_of_rows. eauto.
Qed.

Lemma get_by_claim_most_recent_first_witness :
  Session_wf sample_db
  /\ StronglySorted created_desc (get_by_claim sample_db 7)
  /\ map AISuggestion.id (get_by_claim sample_db 7) = [2%N; 1%N].
Proof.
  split; [exact sample_db_wf |].
  split; [| vm_compute; reflexivity].
  apply (get_by_claim_most_recent_first sample_db 7 sample_db_wf).
Defined.

(** The filters of [get_with_filters] are conjunctive and each one is
    optional: a stored suggestion is returned exactly when it passes every
    filter that is given.  The result is ordered most recent first; with no
    filter it is the whole table, with the claim alone it is
    [get_by_claim], and the route that lists the suggestions of a claim
    returns the same list as the repository. *)
Theorem get_with_filters_conjunctive (db : Session) (claim_id : option UUID)
    (status : option SuggestionStatus) (type : option SuggestionType) :
  (forall s : AISuggestion.t,
     s ∈ get_with_filters db claim_id status type
     <-> s ∈ rows db
         /\ (forall c, claim_id = Some c -> AISuggestion.claim_id s = c)
         /\ (forall st, status = Some st -> AISuggestion.status s = st)
         /\ (forall ty, type = Some ty -> AISuggestion.type s = ty))
  /\ StronglySorted created_desc (get_with_filters db claim_id status type)
  /\ get_with_filters db None None None ≡ₚ rows db
  /\ (forall c, get_with_filters db (Some c) None None = get_by_claim db c)
  /\ (forall c,
        list_claim_suggestions db c status
          = get_with_filters db (Some c) status None).
Proof.
  split; [| split; [| split; [| split]]].
  - intros s. unfold get_with_filters. rewrite merge_sort_Permutation.
    destruct claim_id as [c |], status as [st |], type as [ty |];
      rewrite ?list_elem_of_filter; split.
    all: try (intros (Hty & Hst & Hc & Hrow));
      try (intros (Hx & Hy & Hrow)); try (intros (Hx & Hrow));
      try (intros (Hrow & Hc & Hst & Hty)); try intros Hrow.
    all: repeat split; try assumption; try (intros ? [= <-]; assumption);
      try discriminate; eauto.
  - apply StronglySorted_merge_sort; apply _.
  - unfold get_with_filters. apply merge_sort_Permutation.
  - reflexivity.
  - reflexivity.
Qed.

Section TypeCountFacts.

Lemma all_suggestion_types_complete (ty : SuggestionType) :
  ty ∈ all_suggestion_types.
Proof. destruct ty; unfold all_suggestion_types; repeat constructor. Qed.

Lemma all_suggestion_types_NoDup : NoDup all_suggestion_types.
Proof.
  apply (bool_decide_unpack _). vm_compute. exact I.
Qed.

(** Every row has exactly one of the seven types. *)
Lemma type_partition (l : list AISuggestion.t) :
  sum_list
    (map (fun ty => length (filter (fun s => AISuggestion.type s = ty) l))
       all_suggestion_types)
  = length l.
Proof.
  unfold all_suggestion_types. cbn [map sum_list].
  induction l as [| s l IH]; [reflexivity |].
  rewrite !filter_cons.
  destruct (AISuggestion.type s); repeat case_decide;
    try congruence; cbn [length]; unfold id in *; lia.
Qed.

Lemma sum_list_filter_pos {A} (l : list (A * nat)) :
  sum_list (filter (fun p => (0 < p.2)%nat) l).*2 = sum_list l.*2.
Proof.
  induction l as [| [a n] l IH]; [reflexivity |].
  rewrite filter_cons. cbn. case_decide as Hn; cbn in *; lia.
Qed.

End TypeCountFacts.

(** The counts by type of the metrics: a type is listed, with the number of
    stored suggestions of that type, exactly when there is at least one; no
    type is listed twice, and the counts add up to the total. *)
Theorem suggestions_by_type_counts (db : Session) :
  (forall (ty : SuggestionType) (n : nat),
     (ty, n) ∈ suggestions_by_type (get_metrics db)
     <-> n = length (get_by_type db ty) /\ (0 < n)%nat)
  /\ NoDup (suggestions_by_type (get_metrics db)).*1
  /\ sum_list (suggestions_by_type (get_metrics db)).*2
       = total_suggestions (get_metrics db).
Proof.
  unfold get_metrics. cbn [suggestions_by_type total_suggestions].
  unfold group_by_type.
  change (map (fun ty => (ty, count_type db ty)) all_suggestion_types)
    with ((fun ty => (ty, count_type db ty)) <$> all_suggestion_types).
  split; [| split].
  - intros ty n. rewrite list_elem_of_filter, list_elem_of_fmap. cbn.
    unfold count_type, get_by_type. split.
    + intros [Hpos (ty' & [= -> ->] & _)]. split; [reflexivity | exact Hpos].
    + intros [-> Hpos]. split; [exact Hpos |].
      exists ty. split; [reflexivity | apply all_suggestion_types_complete].
  - eapply sublist_NoDup; [| apply fmap_sublist, sublist_filter].
    rewrite <- list_fmap_compose.
    rewrite (list_fmap_ext _ id) by reflexivity.
    rewrite list_fmap_id. apply all_suggestion_types_NoDup.
  - rewrite sum_list_filter_pos.
    rewrite <- list_fmap_compose. apply type_partition.
Qed.

Section StatusUpdateFacts.

Implicit Types (db : Session) (s : AISuggestion.t) (k : UUID).

(** The row that a status update writes. *)
Lemma update_status_row db (now : datetime) k (st : SuggestionStatus)
    (reviewer : UUID) (notes : option string) (action : option Json) s :
  get db k = Some s ->
  exists s' : AISuggestion.t,
    update_status db now k st reviewer notes action
      = (<[k := s']> db, Some s')
    /\ AISuggestion.status s' = st
    /\ AISuggestion.id s' = AISuggestion.id s
    /\ AISuggestion.claim_id s' = AISuggestion.claim_id s
    /\ AISuggestion.reviewer_id s' = Some reviewer.
Proof.
  intros Hget. unfold update_status, update. rewrite Hget.
  destruct s as [i0 c ty d cs ex act st0 cr ra ri rn mv].
  destruct action as [a |]; [destruct (truthy a) |];
    cbn; eexists; (split; [reflexivity |]); repeat split.
Qed.

Lemma count_status_cons (l : list AISuggestion.t) s (st : SuggestionStatus) :
  length (filter (fun x => AISuggestion.status x = st) (s :: l))
  = ((if decide (AISuggestion.status s = st) then 1 else 0)
     + length (filter (fun x => AISuggestion.status x = st) l))%nat.
Proof. rewrite filter_cons. now case_decide. Qed.

End StatusUpdateFacts.

(** A status update of a stored suggestion keeps the total and moves
    exactly one suggestion from the count of its old status to the count of
    the new one, so the metrics read afterwards agree with the review. *)
Theorem update_status_moves_one_count (db : Session) (now : datetime)
    (id : UUID) (status : SuggestionStatus) (reviewer : UUID)
    (notes : option string) (action : option Json) (s : AISuggestion.t)
    (st : SuggestionStatus) :
  get db id = Some s ->
  total_suggestions
    (get_metrics (update_status db now id status reviewer notes action).1)
    = total_suggestions (get_metrics db)
  /\ (count_status
        (update_status db now id status reviewer notes action).1 st
      + (if decide (AISuggestion.status s = st) then 1 else 0)
      = count_status db st + (if decide (status = st) then 1 else 0))%nat.
Proof.
  intros Hget.
  destruct (update_status_row db now id status reviewer notes action s Hget)
    as (s' & -> & Hst & _).
  cbn. unfold count_status.
  rewrite (rows_insert_stored db id s s' Hget).
  rewrite <- (rows_delete_stored db id s Hget).
  rewrite !count_status_cons, Hst. cbn. split; lia.
Qed.

Lemma update_status_moves_one_count_witness :
  get sample_db 2 = Some (sample_suggestion 2 7 FLAG_FRAUD 0.95 PENDING 20)
  /\ count_status sample_db ACCEPTED = 1%nat
  /\ count_status
       (update_status sample_db 99 2 ACCEPTED 55 None None).1 ACCEPTED
     = 2%nat
  /\ total_suggestions
       (get_metrics (update_status sample_db 99 2 ACCEPTED 55 None None).1)
     = 3%nat.
Proof.
  split; [reflexivity |]. split; [reflexivity |].
  destruct (update_status_moves_one_count sample_db 99 2 ACCEPTED 55 None
              None (sample_suggestion 2 7 FLAG_FRAUD 0.95 PENDING 20)
              ACCEPTED eq_refl) as [Htotal Hcount].
  split; [| rewrite Htotal; reflexivity].
  cbn in Hcount. rewrite Nat.add_0_r in Hcount. rewrite Hcount. reflexivity.
Defined.

(** After a status update the suggestion is among the pending ones exactly
    when the new status is PENDING: a review takes it off the pending list,
    and nothing stops an update from putting a reviewed suggestion back on
    it, the reviewer recorded all the same. *)
Theorem update_status_and_pending (db : Session) (now : datetime)
    (id : UUID) (status : SuggestionStatus) (reviewer : UUID)
    (notes : option string) (action : option Json) (s : AISuggestion.t) :
  Session_wf db ->
  get db id = Some s ->
  (status <> PENDING ->
   forall x : AISuggestion.t,
     x ∈ get_pending_suggestions
           (update_status db now id status reviewer notes action).1 ->
     AISuggestion.id x <> id)
  /\ (status = PENDING ->
      exists x : AISuggestion.t,
        x ∈ get_pending_suggestions
              (update_status db now id status reviewer notes action).1
        /\ AISuggestion.id x = id
        /\ AISuggestion.reviewer_id x = Some reviewer).
Proof.
  intros Hwf Hget.
  destruct (update_status_row db now id status reviewer notes action s Hget)
    as (s' & Hupd & Hst & Hid & _ & Hrev).
  assert (Hwf' : Session_wf
    (update_status db now id status reviewer notes action).1).
  { unfold update_status. apply update_wf, Hwf. }
  rewrite Hupd in *. cbn in *.
  unfold get_pending_suggestions, get_by_status. split.
  - intros Hne x [Hx Hrow]%list_elem_of_filter Heq.
    apply (rows_wf _ _ Hwf') in Hrow. rewrite Heq in Hrow.
    rewrite lookup_insert_eq in Hrow. congruence.
  - intros ->. exists s'. split; [| split; [| exact Hrev]].
    + apply list_elem_of_filter. split; [exact Hst |].
      apply elem_of_rows. exists id. apply lookup_insert_eq.
    + rewrite Hid. exact (Hwf id s Hget).
Qed.

Lemma update_status_and_pending_witness :
  Session_wf sample_db
  /\ get sample_db 1 = Some accepted_suggestion
  /\ exists x : AISuggestion.t,
       x ∈ get_pending_suggestions
             (update_status sample_db 99 1 PENDING 56 None None).1
       /\ AISuggestion.id x = 1%N
       /\ AISuggestion.reviewer_id x = Some 56%N.
Proof.
  split; [exact sample_db_wf |]. split; [reflexivity |].
  apply (proj2 (update_status_and_pending sample_db 99 1 PENDING 56 None
                  None accepted_suggestion sample_db_wf eq_refl)).
  reflexivity.
Defined.

(** Raising the threshold only removes suggestions: the high-confidence
    list for a threshold is obtained from the list for any lower threshold
    by filtering it once more. *)
Theorem high_confidence_antitone (db : Session) (t1 t2 : Q) :
  (t1 <= t2)%Q ->
  get_high_confidence_suggestions db t2
    = filter (fun s => Qle_bool t2 (AISuggestion.confidence_score s) = true)
        (get_high_confidence_suggestions db t1)
  /\ get_high_confidence_suggestions db t2
       `sublist_of` get_high_confidence_suggestions db t1.
Proof.
  intros Hle.
  assert (Heq : get_high_confidence_suggestions db t2
    = filter (fun s => Qle_bool t2 (AISuggestion.confidence_score s) = true)
        (get_high_confidence_suggestions db t1)).
  { unfold get_high_confidence_suggestions. rewrite list_filter_filter.
    apply list_filter_iff. intros s. rewrite !Qle_bool_iff. split.
    - intros H2. split; [exact H2 |]. now apply (Qle_trans _ t2).
    - now intros [H2 _]. }
  split; [exact Heq |]. rewrite Heq. apply sublist_filter.
Qed.

Lemma high_confidence_antitone_witness :
  (0.80 <= 0.81)%Q
  /\ map AISuggestion.id (get_high_confidence_suggestions sample_db 0.80)
     = [2%N; 1%N]
  /\ get_high_confidence_suggestions sample_db 0.81
       `sublist_of` get_high_confidence_suggestions sample_db 0.80.
Proof.
  split; [discriminate |]. split; [vm_compute; reflexivity |].
  apply (high_confidence_antitone sample_db 0.80 0.81). discriminate.
Defined.

(** ** Routes *)

(** Through the review route a suggestion is reviewed at most once: the
    review of a PENDING suggestion with a status other than PENDING
    succeeds and records that status, and every later review of the same
    suggestion is refused with 400 and changes neither the table nor the
    clock. *)
Theorem review_suggestion_at_most_once (db : Session) (id : UUID)
    (review later : SuggestionReview.t) (w : World) (s : AISuggestion.t) :
  get db id = Some s ->
  AISuggestion.status s = PENDING ->
  SuggestionReview.status review <> PENDING ->
  (exists s' : AISuggestion.t,
     (review_suggestion db id review w).1
       = (<[id := s']> db, Ok s')
     /\ AISuggestion.status s' = SuggestionReview.status review
     /\ AISuggestion.reviewer_id s'
          = Some (SuggestionReview.reviewer_id review)
     /\ AISuggestion.reviewed_at s' = Some (clock_source w (clock_read w)))
  /\ review_suggestion (review_suggestion db id review w).1.1 id later
       (review_suggestion db id review w).2
     = (((review_suggestion db id review w).1.1,
         Raise (HTTPException 400 "Suggestion has already been reviewed")),
        (review_suggestion db id review w).2).
Proof.
  intros Hget Hpending Hstatus. unfold get in Hget.
  assert (Hfirst : exists s' : AISuggestion.t,
    (review_suggestion db id review w).1 = (<[id := s']> db, Ok s')
    /\ AISuggestion.status s' = SuggestionReview.status review
    /\ AISuggestion.reviewer_id s'
         = Some (SuggestionReview.reviewer_id review)
    /\ AISuggestion.reviewed_at s' = Some (clock_source w (clock_read w))).
  { unfold review_suggestion. rewrite Hget.
    rewrite decide_False by (intros Hne; now apply Hne).
    destruct s as [i0 c ty d cs ex act st0 cr ra ri rn mv].
    destruct (SuggestionReview.modified_action review) as [a |];
      [destruct (truthy a) |];
      cbn; eexists; (split; [reflexivity |]); repeat split. }
  split; [exact Hfirst |].
  destruct Hfirst as (s' & Hres & Hst & _).
  destruct (review_suggestion db id review w) as [[db1 r1] w1].
  cbn in *. injection Hres as -> ->.
  unfold review_suggestion. rewrite lookup_insert_eq.
  rewrite decide_True by congruence. reflexivity.
Qed.

Lemma review_suggestion_at_most_once_witness :
  get sample_db 2 = Some (sample_suggestion 2 7 FLAG_FRAUD 0.95 PENDING 20)
  /\ review_suggestion
       (review_suggestion sample_db 2
          (SuggestionReview.mk 2 ACCEPTED 55 (Some "Looks good") None)
          sample_world).1.1
       2 (SuggestionReview.mk 2 REJECTED 56 (Some "Second review") None)
       (review_suggestion sample_db 2
          (SuggestionReview.mk 2 ACCEPTED 55 (Some "Looks good") None)
          sample_world).2
     = (((review_suggestion sample_db 2
            (SuggestionReview.mk 2 ACCEPTED 55 (Some "Looks good") None)
            sample_world).1.1,
         Raise (HTTPException 400 "Suggestion has already been reviewed")),
        (review_suggestion sample_db 2
           (SuggestionReview.mk 2 ACCEPTED 55 (Some "Looks good") None)
           sample_world).2).
Proof.
  split; [reflexivity |].
  apply (review_suggestion_at_most_once sample_db 2
           (SuggestionReview.mk 2 ACCEPTED 55 (Some "Looks good") None)
           (SuggestionReview.mk 2 REJECTED 56 (Some "Second review") None)
           sample_world
           (sample_suggestion 2 7 FLAG_FRAUD 0.95 PENDING 20));
    [reflexivity | reflexivity | discriminate].
Defined.

(** An unknown identifier is answered with 404 "Suggestion not found" by
    the routes that get, review, update, re-status and delete a suggestion,
    and none of them changes the table; the review route does not read the
    clock either. *)
Theorem unknown_suggestion_is_not_found (db : Session) (id : UUID)
    (review : SuggestionReview.t) (w : World) (now : datetime)
    (status : SuggestionStatus) (reviewer : UUID) (notes : option string)
    (action : option Json) (fields : list Assignment) :
  get db id = None ->
  get_suggestion_route db id
    = Raise (HTTPException 404 "Suggestion not found")
  /\ review_suggestion db id review w
     = ((db, Raise (HTTPException 404 "Suggestion not found")), w)
  /\ update_suggestion_status_route db now id status reviewer notes action
     = (db, Raise (HTTPException 404 "Suggestion not found"))
  /\ update_suggestion_route db id fields
     = (db, Raise (HTTPException 404 "Suggestion not found"))
  /\ delete_suggestion_route db id
     = (db, Raise (HTTPException 404 "Suggestion not found")).
Proof.
  intros Hget.
  unfold get_suggestion_route, get_suggestion, review_suggestion,
    update_suggestion_status_route, update_suggestion_status, update_status,
    update_suggestion_route, update_suggestion, update,
    delete_suggestion_route, delete_suggestion, delete.
  rewrite Hget. unfold get in Hget. rewrite Hget.
  repeat split; reflexivity.
Qed.

Lemma unknown_suggestion_is_not_found_witness :
  get sample_db 9 = None
  /\ delete_suggestion_route sample_db 9
     = (sample_db, Raise (HTTPException 404 "Suggestion not found"))
  /\ review_suggestion sample_db 9
       (SuggestionReview.mk 9 ACCEPTED 55 None None) sample_world
     = ((sample_db, Raise (HTTPException 404 "Suggestion not found")),
        sample_world).
Proof.
  split; [reflexivity |].
  destruct (unknown_suggestion_is_not_found sample_db 9
              (SuggestionReview.mk 9 ACCEPTED 55 None None) sample_world
              0%Z ACCEPTED 55%N None None [] eq_refl)
    as (_ & Hreview & _ & _ & Hdelete).
  split; [exact Hdelete | exact Hreview].
Defined.

(** A stored suggestion is deleted through the route once: the first
    request answers with the message and removes the row, the second is
    answered with 404 and the suggestion can no longer be fetched. *)
Theorem delete_route_then_not_found (db : Session) (id : UUID)
    (s : AISuggestion.t) :
  get db id = Some s ->
  delete_suggestion_route db id
    = (base.delete id db, Ok "Suggestion deleted successfully")
  /\ delete_suggestion_route (delete_suggestion_route db id).1 id
     = ((delete_suggestion_route db id).1,
        Raise (HTTPException 404 "Suggestion not found"))
  /\ get_suggestion_route (delete_suggestion_route db id).1 id
     = Raise (HTTPException 404 "Suggestion not found").
Proof.
  intros Hget.
  unfold delete_suggestion_route, delete_suggestion, delete,
    get_suggestion_route, get_suggestion.
  rewrite Hget. cbn. unfold get. rewrite lookup_delete_eq.
  repeat split; reflexivity.
Qed.

Lemma delete_route_then_not_found_witness :
  get sample_db 3 = Some (sample_suggestion 3 8 ADJUST_AMOUNT 0.5 PENDING 30)
  /\ get_suggestion_route (delete_suggestion_route sample_db 3).1 3
     = Raise (HTTPException 404 "Suggestion not found").
Proof.
  split; [reflexivity |].
  apply (delete_route_then_not_found sample_db 3
           (sample_suggestion 3 8 ADJUST_AMOUNT 0.5 PENDING 30) eq_refl).
Defined.

(** ** Regeneration, again *)

(** Regenerating a claim that has no suggestion leaves the table as it is,
    and regenerating a claim twice leaves the table that regenerating it
    once leaves. *)
Theorem regenerate_suggestions_idempotent
    (generate : UUID -> result (list AISuggestion.t))
    (db : Session) (claim_id : UUID) :
  Session_wf db ->
  (get_by_claim db claim_id = [] ->
   (regenerate_suggestions generate db claim_id).1 = db)
  /\ (regenerate_suggestions generate
        (regenerate_suggestions generate db claim_id).1 claim_id).1
     = (regenerate_suggestions generate db claim_id).1.
Proof.
  intros Hwf. split.
  - intros Hnone. unfold regenerate_suggestions. now rewrite Hnone.
  - rewrite (regenerate_suggestions_table generate db claim_id Hwf). cbn.
    unfold regenerate_suggestions. cbn.
    now rewrite get_by_claim_filtered.
Qed.

Lemma regenerate_suggestions_idempotent_witness :
  Session_wf sample_db
  /\ (regenerate_suggestions AIService_generate_suggestions
        (regenerate_suggestions AIService_generate_suggestions
           sample_db 7).1 7).1
     = (regenerate_suggestions AIService_generate_suggestions sample_db 7).1.
Proof.
  split; [exact sample_db_wf |].
  apply (regenerate_suggestions_idempotent AIService_generate_suggestions
           sample_db 7 sample_db_wf).
Defined.

(** ** The fallback generator, again *)

(** Every fallback suggestion is PENDING, belongs to the claim, has no
    review data and is marked "fallback-v1".  The identifiers are the next
    draws of [uuid4], in order, and the creation times the next clock
    readings; one of each is consumed per suggestion and no more. *)
Theorem fallback_suggestions_provenance (claim : Claim.t) (w : World) :
  Forall (fun s =>
            AISuggestion.status s = PENDING
            /\ AISuggestion.claim_id s = Claim.id claim
            /\ AISuggestion.model_version s = "fallback-v1"
            /\ AISuggestion.reviewed_at s = None
            /\ AISuggestion.reviewer_id s = None
            /\ AISuggestion.reviewer_notes s = None)
    (_fallback_analysis claim w).1
  /\ AISuggestion.id <$> (_fallback_analysis claim w).1
     = (fun n => uuid_source w (uuid_drawn w + n))
         <$> seq 0 (length (_fallback_analysis claim w).1)
  /\ AISuggestion.created_at <$> (_fallback_analysis claim w).1
     = (fun n => clock_source w (clock_read w + n))
         <$> seq 0 (length (_fallback_analysis claim w).1)
  /\ uuid_drawn (_fallback_analysis claim w).2
     = (uuid_drawn w + length (_fallback_analysis claim w).1)%nat
  /\ clock_read (_fallback_analysis claim w).2
     = (clock_read w + length (_fallback_analysis claim w).1)%nat
  /\ uuid_source (_fallback_analysis claim w).2 = uuid_source w
  /\ clock_source (_fallback_analysis claim w).2 = clock_source w.
Proof.
  unfold _fallback_analysis.
  destruct (Qgtb (Claim.total_amount claim) 10000);
    destruct (Qgtb (Claim.total_amount claim) 50000
              || len_gt (Claim.items claim) 10);
    cbn; (split; [repeat constructor |]);
    repeat split; repeat (f_equal; try lia).
Qed.

(** Which candidates the fallback emits, by amount and number of items,
    with the bounds: an amount of exactly 10000 is not a high value, an
    amount of exactly 50000 and exactly 10 items raise no fraud flag, and a
    fraud flag for the amount always follows an adjustment candidate. *)
Theorem fallback_decision_table (claim : Claim.t) (w : World) :
  ((Claim.total_amount claim <= 10000)%Q
   /\ (length (Claim.items claim) <= 10)%nat ->
   AISuggestion.type <$> (_fallback_analysis claim w).1 = [APPROVE_CLAIM])
  /\ ((Claim.total_amount claim <= 10000)%Q
      /\ (10 < length (Claim.items claim))%nat ->
      AISuggestion.type <$> (_fallback_analysis claim w).1
        = [FLAG_FRAUD; APPROVE_CLAIM])
  /\ ((10000 < Claim.total_amount claim)%Q
      /\ (Claim.total_amount claim <= 50000)%Q
      /\ (length (Claim.items claim) <= 10)%nat ->
      AISuggestion.type <$> (_fallback_analysis claim w).1
        = [ADJUST_AMOUNT; APPROVE_CLAIM])
  /\ ((10000 < Claim.total_amount claim)%Q
      /\ (Claim.total_amount claim <= 50000)%Q
      /\ (10 < length (Claim.items claim))%nat ->
      AISuggestion.type <$> (_fallback_analysis claim w).1
        = [ADJUST_AMOUNT; FLAG_FRAUD; APPROVE_CLAIM])
  /\ ((50000 < Claim.total_amount claim)%Q ->
      AISuggestion.type <$> (_fallback_analysis claim w).1
        = [ADJUST_AMOUNT; FLAG_FRAUD; APPROVE_CLAIM]).
Proof.
  destruct (fallback_rules claim w) as (i1 & i2 & i3 & t1 & t2 & t3 & ->).
  split; [| split; [| split; [| split]]].
  - intros [Hlow%Qgtb_false Hfew%len_gt_false].
    assert (Hfraud : Qgtb (Claim.total_amount claim) 50000 = false).
    { apply Qgtb_false. apply Qgtb_false in Hlow.
      apply (Qle_trans _ 10000); [exact Hlow | discriminate]. }
    now rewrite Hlow, Hfraud, Hfew.
  - intros [Hlow%Qgtb_false Hmany%len_gt_true].
    rewrite Hlow, Hmany, orb_true_r. reflexivity.
  - intros (Hhigh%Qgtb_true & Hmid%Qgtb_false & Hfew%len_gt_false).
    now rewrite Hhigh, Hmid, Hfew.
  - intros (Hhigh%Qgtb_true & Hmid%Qgtb_false & Hmany%len_gt_true).
    rewrite Hhigh, Hmany, orb_true_r. reflexivity.
  - intros Hbig.
    assert (Hhigh : Qgtb (Claim.total_amount claim) 10000 = true).
    { apply Qgtb_true. apply (Qlt_trans _ 50000); [reflexivity | exact Hbig]. }
    apply Qgtb_true in Hbig. now rewrite Hhigh, Hbig.
Qed.

Lemma fallback_decision_table_witness :
  (Claim.total_amount (sample_claim 10000 10) <= 10000)%Q
  /\ (length (Claim.items (sample_claim 10000 10)) <= 10)%nat
  /\ AISuggestion.type
       <$> (_fallback_analysis (sample_claim 10000 10) sample_world).1
     = [APPROVE_CLAIM]
  /\ AISuggestion.type
       <$> (_fallback_analysis (sample_claim 50000 11) sample_world).1
     = [ADJUST_AMOUNT; FLAG_FRAUD; APPROVE_CLAIM].
Proof.
  assert (H1 : (Claim.total_amount (sample_claim 10000 10) <= 10000)%Q)
    by discriminate.
  assert (H2 : (length (Claim.items (sample_claim 10000 10)) <= 10)%nat)
    by (cbn; lia).
  split; [exact H1 |]. split; [exact H2 |]. split.
  - apply (proj1 (fallback_decision_table (sample_claim 10000 10)
                    sample_world)). now split.
  - apply (proj1 (proj2 (proj2 (proj2
             (fallback_decision_table (sample_claim 50000 11)
                sample_world))))).
    split; [reflexivity |]. split; [discriminate | cbn; lia].
Defined.

(** ** VideoService *)

(** [validate_video] answers [True] exactly for a file of an allowed type
    of at most 100MB and at most 300 seconds, both bounds included, and
    never answers [False]: every other file raises.  The type is checked
    before the size and the size before the duration, so a file of a
    foreign type is reported as such whatever its size. *)
Theorem validate_video_checks (file : VideoFile) :
  (validate_video file = inr true
   <-> file_type file ∈ allowed_mime_types
       /\ (file_size file <= 104857600)%Z
       /\ (clip_duration file <= 300)%Q)
  /\ validate_video file <> inr false
  /\ (file_type file ∉ allowed_mime_types ->
      validate_video file
        = inl (mkValueError
                 ("Unsupported video format: " ++ file_type file)))
  /\ (file_type file ∈ allowed_mime_types ->
      (104857600 < file_size file)%Z ->
      validate_video file
        = inl (mkValueError
                 "Video file too large. Maximum size is 100.0MB")).
Proof.
  unfold validate_video.
  change max_video_size with 104857600%Z.
  change max_video_duration with 300%Q.
  destruct (bool_decide_reflect (file_type file ∈ allowed_mime_types))
    as [Hty | Hty]; cbn [negb].
  - destruct (Z.ltb_spec 104857600 (file_size file)) as [Hsz | Hsz].
    + split; [| split; [discriminate | split; [tauto | reflexivity]]].
      split; [discriminate |]. intros (_ & Hle & _). lia.
    + destruct (Qgtb (clip_duration file) 300) eqn:Hd.
      * split; [| split; [discriminate | split; [tauto | lia]]].
        split; [discriminate |]. intros (_ & _ & Hle).
        apply Qgtb_true in Hd. now apply Qlt_not_le in Hd.
      * split; [| split; [discriminate | split; [tauto | lia]]].
        split; [| reflexivity]. intros _. apply Qgtb_false in Hd. tauto.
  - split; [| split; [discriminate | split; [reflexivity | tauto]]].
    split; [discriminate | tauto].
Qed.

(** ** Listings under creation and review *)

(** A suggestion created under a fresh identifier is listed for its claim,
    next to the suggestions the claim had, and the listing of every other
    claim is the one it was. *)
Theorem create_suggestion_is_listed (db : Session) (s : AISuggestion.t)
    (claim_id : UUID) :
  db !! AISuggestion.id s = None ->
  get_by_claim (create_suggestion db s).1 (AISuggestion.claim_id s)
    ≡ₚ s :: get_by_claim db (AISuggestion.claim_id s)
  /\ (claim_id <> AISuggestion.claim_id s ->
      get_by_claim (create_suggestion db s).1 claim_id
        ≡ₚ get_by_claim db claim_id)
  /\ (AISuggestion.status s = PENDING ->
      s ∈ get_pending_suggestions (create_suggestion db s).1).
Proof.
  intros Hfresh. unfold create_suggestion, create. rewrite Hfresh. cbn.
  unfold get_by_claim, get_pending_suggestions, get_by_status.
  rewrite !merge_sort_Permutation.
  rewrite !(rows_insert_fresh db _ s Hfresh), !filter_cons.
  split; [| split].
  - now rewrite decide_True by reflexivity.
  - intros Hne. now rewrite decide_False by congruence.
  - intros Hst. rewrite decide_True by exact Hst. apply elem_of_cons. now left.
Qed.

Lemma create_suggestion_is_listed_witness :
  sample_db !! AISuggestion.id overconfident_suggestion = None
  /\ get_by_claim (create_suggestion sample_db overconfident_suggestion).1 7
       ≡ₚ overconfident_suggestion :: get_by_claim sample_db 7
  /\ overconfident_suggestion
       ∈ get_pending_suggestions
           (create_suggestion sample_db overconfident_suggestion).1.
Proof.
  split; [reflexivity |].
  destruct (create_suggestion_is_listed sample_db overconfident_suggestion
              8 eq_refl) as (Hlisted & _ & Hpending).
  split; [exact Hlisted | now apply Hpending].
Defined.

(** A status update moves no suggestion between claims: for every claim the
    identifiers listed after the update are the identifiers listed before
    it. *)
Theorem update_status_keeps_listings (db : Session) (now : datetime)
    (id : UUID) (status : SuggestionStatus) (reviewer : UUID)
    (notes : option string) (action : option Json) (s : AISuggestion.t)
    (claim_id : UUID) :
  get db id = Some s ->
  AISuggestion.id
    <$> get_by_claim
          (update_status db now id status reviewer notes action).1 claim_id
  ≡ₚ AISuggestion.id <$> get_by_claim db claim_id.
Proof.
  intros Hget.
  destruct (update_status_row db now id status reviewer notes action s Hget)
    as (s' & -> & _ & Hid & Hclaim & _).
  cbn. unfold get_by_claim. rewrite !merge_sort_Permutation.
  rewrite (rows_insert_stored db id s s' Hget).
  rewrite <- (rows_delete_stored db id s Hget).
  rewrite !filter_cons, Hclaim.
  case_decide; [| reflexivity]. cbn. now rewrite Hid.
Qed.

Lemma update_status_keeps_listings_witness :
  get sample_db 2 = Some (sample_suggestion 2 7 FLAG_FRAUD 0.95 PENDING 20)
  /\ AISuggestion.id
       <$> get_by_claim
             (update_status sample_db 99 2 REJECTED 55 None None).1 7
     ≡ₚ [2%N; 1%N].
Proof.
  split; [reflexivity |].
  apply (update_status_keeps_listings sample_db 99 2 REJECTED 55 None None
           (sample_suggestion 2 7 FLAG_FRAUD 0.95 PENDING 20) 7 eq_refl).
Defined.
